(** * Meshcore signal heatmap: a shallow embedding of the ingestion,
      aggregation and rendering code, with the properties of its contract.

    The embedding follows the Python sources file by file:
    - [models.py]   : [Payload], [PingSampleIn], [HeatmapPoint], [HeatmapResponse]
    - [db.py]       : [Column], [PingSample], [Session], [get_session]
    - [heatmap.py]  : [build_heatmap_points], [render_heatmap_html]
    - [api.py]      : [create_ping_sample], [create_ping_samples], [get_heatmap]
    - [cli.py]      : [ingest_sample], [export_heatmap]

    Conventions.
    - A Python [float] (and an SQL [Float] column) is a canonical rational
      [Qc]: sums, quotients and comparisons are exact, so rounding, NaN and
      infinities are outside the model.
    - A [datetime] is an integer count of microseconds; [datetime.utcnow()]
      is an explicit argument [now].
    - [None] is [option]'s [None]; a raised exception is [Raise]. *)

From Stdlib Require Import ZArith QArith Qcanon String List Lia.
From stdpp Require Import base numbers option list strings gmap sorting.

Local Open Scope Z_scope.

Abbreviation float := Qc.
Abbreviation datetime := Z.

(** ** Python values and builtins used by the sources *)

Inductive Exception :=
  | ValidationError (field : string)      (* pydantic / FastAPI request validation *)
  | HTTPException (status_code : Z) (detail : string)
  | ValueError (msg : string)
  | IntegrityError
  | Exit (code : Z).                       (* typer.Exit *)

(** The outcome of a call.  [EngineDefined] marks the one place where the
    sources leave the outcome to the storage engine: an [AVG] whose operand
    is not a numeric column. *)
Inductive result (A : Type) :=
  | Return (a : A)
  | Raise (e : Exception)
  | EngineDefined.
Arguments Return {A} a.
Arguments Raise {A} e.
Arguments EngineDefined {A}.

(** Truthiness of the values the sources test with [if x:] / [x or y]. *)
Definition truthy_int (o : option Z) : bool :=
  match o with Some n => negb (n =? 0) | None => false end.

Definition truthy_str (o : option string) : bool :=
  match o with Some s => negb (String.eqb s "") | None => false end.

Definition py_sum (l : list float) : float := foldr Qcplus (Q2Qc 0) l.

(** [min(iterable)]: the first item is the candidate, a later item replaces
    it when [item < candidate]; an empty iterable raises [ValueError]. *)
Definition keep_lower (m y : float) : float := if decide (y < m)%Qc then y else m.

Definition py_min (l : list float) : option float :=
  match l with
  | [] => None
  | x :: l' => Some (fold_left keep_lower l' x)
  end.

(** [max(iterable)]: as [min], replacing when [item > candidate]. *)
Definition keep_upper (m y : float) : float := if decide (m < y)%Qc then y else m.

Definition py_max (l : list float) : option float :=
  match l with
  | [] => None
  | x :: l' => Some (fold_left keep_upper l' x)
  end.

(** ** models.py *)

(** The decoded request body handed to [PingSampleIn]: every key may be
    absent (or JSON null), which is [None].  A value of the wrong JSON type
    is a validation error as well and is not represented. *)
Module Payload.
Record t := mk {
  origin_node_id : option string;
  target_node_id : option string;
  timestamp : option datetime;
  latitude : option float;
  longitude : option float;
  altitude_m : option float;
  rssi_dbm : option float;
  snr_db : option float;
  round_trip_ms : option float;
  hardware_model : option string;
  firmware_version : option string;
  antenna_model : option string;
  antenna_gain_dbi : option float;
  antenna_polarization : option string;
  tx_power_dbm : option float;
  frequency_mhz : option float;
  channel_id : option string;
  region : option string
}.
End Payload.

Module PingSampleIn.
Record t := mk {
  origin_node_id : string;
  target_node_id : string;
  timestamp : option datetime;
  latitude : option float;
  longitude : option float;
  altitude_m : option float;
  rssi_dbm : option float;
  snr_db : option float;
  round_trip_ms : option float;
  hardware_model : option string;
  firmware_version : option string;
  antenna_model : option string;
  antenna_gain_dbi : option float;
  antenna_polarization : option string;
  tx_power_dbm : option float;
  frequency_mhz : option float;
  channel_id : option string;
  region : option string
}.

(** [Field(None, ge=lo, le=hi)] on an [Optional[float]]. *)
Definition in_range (lo hi : float) (o : option float) : bool :=
  match o with
  | None => true
  | Some x => bool_decide (lo ≤ x)%Qc && bool_decide (x ≤ hi)%Qc
  end.

(** Construction of the model from a payload: the two node identifiers are
    required ([Field(...)]), latitude and longitude are range-checked, every
    other field is optional and unconstrained. *)
Definition validate (p : Payload.t) : result t :=
  match Payload.origin_node_id p with
  | None => Raise (ValidationError "origin_node_id")
  | Some origin =>
    match Payload.target_node_id p with
    | None => Raise (ValidationError "target_node_id")
    | Some target =>
      if negb (in_range (Q2Qc (-90)) (Q2Qc 90) (Payload.latitude p))
      then Raise (ValidationError "latitude")
      else if negb (in_range (Q2Qc (-180)) (Q2Qc 180) (Payload.longitude p))
      then Raise (ValidationError "longitude")
      else Return
        {| origin_node_id := origin;
           target_node_id := target;
           timestamp := Payload.timestamp p;
           latitude := Payload.latitude p;
           longitude := Payload.longitude p;
           altitude_m := Payload.altitude_m p;
           rssi_dbm := Payload.rssi_dbm p;
           snr_db := Payload.snr_db p;
           round_trip_ms := Payload.round_trip_ms p;
           hardware_model := Payload.hardware_model p;
           firmware_version := Payload.firmware_version p;
           antenna_model := Payload.antenna_model p;
           antenna_gain_dbi := Payload.antenna_gain_dbi p;
           antenna_polarization := Payload.antenna_polarization p;
           tx_power_dbm := Payload.tx_power_dbm p;
           frequency_mhz := Payload.frequency_mhz p;
           channel_id := Payload.channel_id p;
           region := Payload.region p |}
    end
  end.
End PingSampleIn.

Module HeatmapPoint.
Record t := mk {
  latitude : float;
  longitude : float;
  intensity : float;
  samples : Z;
  latest_seen : option datetime;
  antenna_gain_dbi : option float;
  tx_power_dbm : option float;
  hardware_model : option string
}.
End HeatmapPoint.

Module HeatmapResponse.
Record t := mk {
  metric : string;
  points : list HeatmapPoint.t;
  min_value : option float;
  max_value : option float
}.
End HeatmapResponse.

(** ** db.py *)

(** The columns of the [ping_samples] table, as declared in the class body
    of [PingSample]. *)
Module Column.
Inductive t :=
  | id | created_at
  | origin_node_id | target_node_id
  | latitude | longitude | altitude_m
  | rssi_dbm | snr_db | round_trip_ms
  | hardware_model | firmware_version | antenna_model
  | antenna_gain_dbi | antenna_polarization | tx_power_dbm | frequency_mhz
  | channel_id | region.

Definition all : list t :=
  [ id; created_at; origin_node_id; target_node_id; latitude; longitude;
    altitude_m; rssi_dbm; snr_db; round_trip_ms; hardware_model;
    firmware_version; antenna_model; antenna_gain_dbi;
    antenna_polarization; tx_power_dbm; frequency_mhz; channel_id; region ].

Definition name (c : t) : string :=
  match c with
  | id => "id" | created_at => "created_at"
  | origin_node_id => "origin_node_id" | target_node_id => "target_node_id"
  | latitude => "latitude" | longitude => "longitude"
  | altitude_m => "altitude_m"
  | rssi_dbm => "rssi_dbm" | snr_db => "snr_db"
  | round_trip_ms => "round_trip_ms"
  | hardware_model => "hardware_model"
  | firmware_version => "firmware_version"
  | antenna_model => "antenna_model"
  | antenna_gain_dbi => "antenna_gain_dbi"
  | antenna_polarization => "antenna_polarization"
  | tx_power_dbm => "tx_power_dbm" | frequency_mhz => "frequency_mhz"
  | channel_id => "channel_id" | region => "region"
  end.
End Column.

Module PingSample.
Record t := mk {
  id : Z;
  created_at : datetime;
  origin_node_id : string;
  target_node_id : string;
  latitude : option float;
  longitude : option float;
  altitude_m : option float;
  rssi_dbm : option float;
  snr_db : option float;
  round_trip_ms : option float;
  hardware_model : option string;
  firmware_version : option string;
  antenna_model : option string;
  antenna_gain_dbi : option float;
  antenna_polarization : option string;
  tx_power_dbm : option float;
  frequency_mhz : option float;
  channel_id : option string;
  region : option string
}.

(** What [getattr(PingSample, name, None)] finds in the class body: a
    mapped column, or one of the two strings [__tablename__] and [__doc__].
    Names inherited from the declarative base ([metadata], [registry],
    other dunder attributes) are not declared in the sources and are
    answered [None] here. *)
Inductive attribute :=
  | AColumn (c : Column.t)
  | AText (s : string).

Definition getattr (name : string) : option attribute :=
  if String.eqb name "__tablename__" then Some (AText "ping_samples")
  else if String.eqb name "__doc__"
  then Some (AText "ORM model capturing a single ping telemetry record.")
  else AColumn <$> List.find (fun c => String.eqb (Column.name c) name) Column.all.

(** The value a [Float] column holds in a row; [None] for a column of
    another SQL type. *)
Definition real (c : Column.t) : option (t -> option float) :=
  match c with
  | Column.latitude => Some latitude
  | Column.longitude => Some longitude
  | Column.altitude_m => Some altitude_m
  | Column.rssi_dbm => Some rssi_dbm
  | Column.snr_db => Some snr_db
  | Column.round_trip_ms => Some round_trip_ms
  | Column.antenna_gain_dbi => Some antenna_gain_dbi
  | Column.tx_power_dbm => Some tx_power_dbm
  | Column.frequency_mhz => Some frequency_mhz
  | _ => None
  end.

(** [PingSample(...)] before it is flushed: the row it becomes once the
    insert fills the [created_at] default ([datetime.utcnow]) and the
    database assigns the primary key. *)
Definition transient := datetime -> Z -> t.

Definition new (created : option datetime) (s : PingSampleIn.t) : transient :=
  fun now key =>
    {| id := key;
       created_at := default now created;
       origin_node_id := PingSampleIn.origin_node_id s;
       target_node_id := PingSampleIn.target_node_id s;
       latitude := PingSampleIn.latitude s;
       longitude := PingSampleIn.longitude s;
       altitude_m := PingSampleIn.altitude_m s;
       rssi_dbm := PingSampleIn.rssi_dbm s;
       snr_db := PingSampleIn.snr_db s;
       round_trip_ms := PingSampleIn.round_trip_ms s;
       hardware_model := PingSampleIn.hardware_model s;
       firmware_version := PingSampleIn.firmware_version s;
       antenna_model := PingSampleIn.antenna_model s;
       antenna_gain_dbi := PingSampleIn.antenna_gain_dbi s;
       antenna_polarization := PingSampleIn.antenna_polarization s;
       tx_power_dbm := PingSampleIn.tx_power_dbm s;
       frequency_mhz := PingSampleIn.frequency_mhz s;
       channel_id := PingSampleIn.channel_id s;
       region := PingSampleIn.region s |}.

(** The grouping key of the heatmap query. *)
Definition key (r : t) : option float * option float :=
  (latitude r, longitude r).
End PingSample.

(** ** SQL aggregates *)

Definition non_null {A} (l : list (option A)) : list A := omap id l.

(** [AVG(x)]: the mean of the non-NULL values, NULL when there is none. *)
Definition sql_avg (l : list (option float)) : option float :=
  match non_null l with
  | [] => None
  | vs => Some (py_sum vs / Qc_of_Z (Z.of_nat (length vs)))%Qc
  end.

(** [COUNT(x)]: the number of non-NULL values. *)
Definition sql_count {A} (l : list (option A)) : Z :=
  Z.of_nat (length (non_null l)).

(** [MAX(x)] for an order given by [ltb]: the greatest non-NULL value. *)
Definition sql_max {A} (ltb : A -> A -> bool) (l : list (option A)) : option A :=
  match non_null l with
  | [] => None
  | v :: vs => Some (fold_left (fun m y => if ltb m y then y else m) vs v)
  end.

(** The first occurrence of every element, in order of appearance. *)
Fixpoint distinct {A} `{EqDecision A} (l : list A) : list A :=
  match l with
  | [] => []
  | x :: l' => x :: filter (fun y => y ≠ x) (distinct l')
  end.

(** ** The heatmap query (api.py lines 148-171, cli.py lines 87-112) *)

Module Row.
(** One result row, with the labels the [select] gives its columns. *)
Record t := mk {
  latitude : option float;
  longitude : option float;
  metric_value : option float;
  sample_count : option Z;
  latest_seen : option datetime;
  antenna_gain : option float;
  tx_power : option float;
  hardware_model : option string
}.
End Row.

Module Query.
Inductive criterion :=
  | HasCoordinates                    (* latitude IS NOT NULL, longitude IS NOT NULL *)
  | CreatedSince (cutoff : datetime)  (* created_at >= cutoff *)
  | HardwareModelIs (m : string)      (* hardware_model = m *)
  | AntennaModelIs (m : string).      (* antenna_model = m *)

Record t := mk {
  operand : PingSample.attribute;   (* what AVG(...) AS metric_value averages *)
  where_ : list criterion
}.

(** [query.where(c)]: one more condition, joined with AND. *)
Definition and_where (c : criterion) (q : t) : t :=
  mk (operand q) (where_ q ++ [c]).

(** A comparison with NULL is not true, so a row whose column is NULL
    fails an equality criterion. *)
Definition holds (c : criterion) (r : PingSample.t) : bool :=
  match c with
  | HasCoordinates =>
      bool_decide (is_Some (PingSample.latitude r))
      && bool_decide (is_Some (PingSample.longitude r))
  | CreatedSince cutoff => cutoff <=? PingSample.created_at r
  | HardwareModelIs m => bool_decide (PingSample.hardware_model r = Some m)
  | AntennaModelIs m => bool_decide (PingSample.antenna_model r = Some m)
  end.

Definition selected (q : t) (r : PingSample.t) : bool :=
  forallb (fun c => holds c r) (where_ q).

(** The aggregate row of one group [g] of rows sharing the key [k]. *)
Definition aggregate (value : PingSample.t -> option float)
    (k : option float * option float) (g : list PingSample.t) : Row.t :=
  {| Row.latitude := k.1;
     Row.longitude := k.2;
     Row.metric_value := sql_avg (value <$> g);
     Row.sample_count := Some (sql_count ((fun r => Some (PingSample.id r)) <$> g));
     Row.latest_seen := sql_max Z.ltb ((fun r => Some (PingSample.created_at r)) <$> g);
     Row.antenna_gain := sql_avg (PingSample.antenna_gain_dbi <$> g);
     Row.tx_power := sql_avg (PingSample.tx_power_dbm <$> g);
     Row.hardware_model := sql_max String.ltb (PingSample.hardware_model <$> g) |}.

(** The rows of the group with key [k] among the selected rows. *)
Definition group (q : t) (table : list PingSample.t)
    (k : option float * option float) : list PingSample.t :=
  filter (fun r => PingSample.key r = k) (filter (fun r => selected q r) table).

(** [WHERE ... GROUP BY latitude, longitude]: one row per distinct key of
    the selected rows.  SQL leaves the order of the groups open; here they
    come in order of first appearance.  [None] when the AVG operand is not
    a [Float] column. *)
Definition value_of (a : PingSample.attribute) : option (PingSample.t -> option float) :=
  match a with
  | PingSample.AColumn c => PingSample.real c
  | PingSample.AText _ => None
  end.

Definition run (q : t) (table : list PingSample.t) : option (list Row.t) :=
  value ← value_of (operand q);
  Some ((fun k => aggregate value k (group q table k))
          <$> distinct (PingSample.key <$> filter (fun r => selected q r) table)).
End Query.

(** The query both surfaces build: the base [select] with its two
    [IS NOT NULL] conditions, then one [.where] per truthy filter. *)
Definition heatmap_query (column : PingSample.attribute) (now : datetime)
    (hours : option Z) (hardware_model antenna_model : option string) : Query.t :=
  let query := Query.mk column [Query.HasCoordinates] in
  let query :=
    if truthy_int hours
    then
      let cutoff := now - default 0 hours * 3600000000 in
      Query.and_where (Query.CreatedSince cutoff) query
    else query in
  let query :=
    if truthy_str hardware_model
    then Query.and_where (Query.HardwareModelIs (default "" hardware_model)) query
    else query in
  if truthy_str antenna_model
  then Query.and_where (Query.AntennaModelIs (default "" antenna_model)) query
  else query.

(** ** Sessions (db.py) *)

Module Session.
Record t := mk {
  table : list PingSample.t;              (* the rows the transaction sees *)
  pending : list PingSample.transient;    (* added, not yet flushed *)
  persistent : list PingSample.t;         (* this session's objects, once flushed *)
  statements : list Query.t               (* the SELECTs executed so far *)
}.

Definition open (db : list PingSample.t) : t := mk db [] [] [].

Definition add (o : PingSample.transient) (s : t) : t :=
  mk (table s) (pending s ++ [o]) (persistent s) (statements s).

(** The key SQLite gives a row inserted without one (an [INTEGER PRIMARY
    KEY] is the rowid): 1 in an empty table, else one more than the largest
    key in use.  At the largest 64-bit key SQLite draws unused keys at
    random, and the engine of another [DATABASE_URL] has its own rule; the
    properties below do not depend on which key a new row gets. *)
Definition next_id (rows : list PingSample.t) : Z :=
  match PingSample.id <$> rows with
  | [] => 1
  | k :: ks => 1 + foldr Z.max k ks
  end.

(** The insert of one pending object, at time [now]. *)
Definition insert (now : datetime) (s : t) (o : PingSample.transient) : t :=
  let row := o now (next_id (table s)) in
  mk (table s ++ [row]) [] (persistent s ++ [row]) (statements s).

(** [session.flush()]: the pending objects are inserted in order. *)
Definition flush (now : datetime) (s : t) : t :=
  fold_left (insert now) (pending s)
    (mk (table s) [] (persistent s) (statements s)).

(** [session.execute(query).all()] ([autoflush] is off). *)
Definition execute (q : Query.t) (s : t) : option (list Row.t) * t :=
  (Query.run q (table s),
   mk (table s) (pending s) (persistent s) (statements s ++ [q])).

Definition commit (now : datetime) (s : t) : list PingSample.t :=
  table (flush now s).
End Session.

(** What a request leaves behind: its outcome, the table after it and the
    SELECT statements it sent. *)
Record transcript (A : Type) := Transcript {
  outcome : result A;
  database : list PingSample.t;
  executed : list Query.t
}.
Arguments Transcript {A}.
Arguments outcome {A}.
Arguments database {A}.
Arguments executed {A}.

(** [with get_session() as session: body]: commit when the body returns;
    roll back on [IntegrityError]; in every other case the session is only
    closed, which drops what it had not committed. *)
Definition get_session {A} (now : datetime)
    (body : Session.t -> result A * Session.t)
    (db : list PingSample.t) : transcript A :=
  let '(r, s) := body (Session.open db) in
  match r with
  | Return a => Transcript r (Session.commit now s) (Session.statements s)
  | Raise IntegrityError => Transcript r db (Session.statements s)
  | _ => Transcript r db (Session.statements s)
  end.

(** ** settings.py *)

Module Settings.
Record t := mk {
  database_url : string;
  map_tile_url : option string;
  heatmap_min_opacity : float;
  heatmap_radius : Z;
  heatmap_blur : Z;
  heatmap_max_zoom : Z
}.
End Settings.

(** ** heatmap.py *)

(** [int(sample_count or 1)] *)
Definition samples_of (sample_count : option Z) : Z :=
  if truthy_int sample_count then default 1 sample_count else 1.

(** One iteration of the loop of [build_heatmap_points]: [None] is the
    [continue] branch. *)
Definition heatmap_point (r : Row.t) : option HeatmapPoint.t :=
  match Row.latitude r, Row.longitude r, Row.metric_value r with
  | Some latitude, Some longitude, Some metric_value =>
      Some {| HeatmapPoint.latitude := latitude;
              HeatmapPoint.longitude := longitude;
              HeatmapPoint.intensity := metric_value;
              HeatmapPoint.samples := samples_of (Row.sample_count r);
              HeatmapPoint.latest_seen := Row.latest_seen r;
              HeatmapPoint.antenna_gain_dbi := Row.antenna_gain r;
              HeatmapPoint.tx_power_dbm := Row.tx_power r;
              HeatmapPoint.hardware_model := Row.hardware_model r |}
  | _, _, _ => None
  end.

Definition build_heatmap_points (records : list Row.t) (metric : string)
    : list HeatmapPoint.t :=
  omap heatmap_point records.

(** The document folium saves, kept as data: the map, its heat layer and
    its circle markers.  A tooltip keeps the values its text is formatted
    from; [gain] is [None] where the text reads ['n/a'].  [folium.Map]
    builds the map for the tiles it knows by name, "OpenStreetMap" among
    them; a tile URL of one's own it refuses for want of an attribution,
    which [render_heatmap_html] does not pass.  The rendering below is that
    of tiles folium accepts, and what is proved of a rendered document is
    stated for the default tiles. *)
Module Folium.
Record Tooltip := mkTooltip {
  label : string;
  value : float;
  count : Z;
  gain : option float
}.

Record CircleMarker := mkCircleMarker {
  marker_location : float * float;
  tooltip : Tooltip
}.

Record Map := mkMap {
  location : float * float;
  tiles : string;
  zoom_start : Z;
  heat_data : list (float * float * float);
  min_opacity : float;
  radius : Z;
  blur : Z;
  max_zoom : Z;
  markers : list CircleMarker
}.
End Folium.

(** [x or 'n/a'] on an optional float: [None] and [0.0] are both falsy. *)
Definition gain_or_na (g : option float) : option float :=
  match g with
  | Some x => if decide (x = Q2Qc 0) then None else Some x
  | None => None
  end.

(** [settings.map_tile_url or "OpenStreetMap"] *)
Definition tiles_or_default (url : option string) : string :=
  if truthy_str url then default "OpenStreetMap" url else "OpenStreetMap".

Definition render_heatmap_html (settings : Settings.t)
    (points : list HeatmapPoint.t) (output_path : string) (metric : string)
    (files : gmap string Folium.Map) : result string * gmap string Folium.Map :=
  match points with
  | [] => (Raise (ValueError "No heatmap points available to render."), files)
  | _ =>
    let n := Qc_of_Z (Z.of_nat (length points)) in
    let avg_lat := (py_sum (HeatmapPoint.latitude <$> points) / n)%Qc in
    let avg_lon := (py_sum (HeatmapPoint.longitude <$> points) / n)%Qc in
    let base_map :=
      {| Folium.location := (avg_lat, avg_lon);
         Folium.tiles := tiles_or_default (Settings.map_tile_url settings);
         Folium.zoom_start := 11;
         Folium.heat_data :=
           (fun p => (HeatmapPoint.latitude p, HeatmapPoint.longitude p,
                      HeatmapPoint.intensity p)) <$> points;
         Folium.min_opacity := Settings.heatmap_min_opacity settings;
         Folium.radius := Settings.heatmap_radius settings;
         Folium.blur := Settings.heatmap_blur settings;
         Folium.max_zoom := Settings.heatmap_max_zoom settings;
         Folium.markers :=
           (fun p =>
              {| Folium.marker_location :=
                   (HeatmapPoint.latitude p, HeatmapPoint.longitude p);
                 Folium.tooltip :=
                   {| Folium.label := metric;
                      Folium.value := HeatmapPoint.intensity p;
                      Folium.count := HeatmapPoint.samples p;
                      Folium.gain := gain_or_na (HeatmapPoint.antenna_gain_dbi p) |}
              |}) <$> points |} in
    (Return output_path, <[output_path := base_map]> files)
  end.

(** ** api.py *)

(** [created_at=timestamp or datetime.utcnow()]; after validation the
    timestamp is a [datetime] or [None], so the [isinstance] conversion of
    the handlers never applies. *)
Definition record_of (now : datetime) (sample : PingSampleIn.t) : PingSample.transient :=
  PingSample.new (Some (default now (PingSampleIn.timestamp sample))) sample.

(** [session.refresh(record)] reloads the row of a flushed record; the
    handlers return the records they added, which are the session's
    persistent objects. *)
Definition create_ping_sample (now : datetime) (sample : PingSampleIn.t)
    (session : Session.t) : result (option PingSample.t) * Session.t :=
  let session := Session.add (record_of now sample) session in
  let session := Session.flush now session in
  (Return (last (Session.persistent session)), session).

Definition create_ping_samples (now : datetime) (samples : list PingSampleIn.t)
    (session : Session.t) : result (list PingSample.t) * Session.t :=
  match samples with
  | [] => (Raise (HTTPException 400 "No samples provided."), session)
  | _ =>
    let session :=
      fold_left (fun s sample => Session.add (record_of now sample) s) samples session in
    let session := Session.flush now session in
    (Return (Session.persistent session), session)
  end.

(** The envelope of [get_heatmap] for the points built from the rows. *)
Definition envelope (metric : string) (points : list HeatmapPoint.t)
    : HeatmapResponse.t :=
  match points with
  | [] => HeatmapResponse.mk metric [] None None
  | _ =>
    HeatmapResponse.mk metric points
      (py_min (HeatmapPoint.intensity <$> points))
      (py_max (HeatmapPoint.intensity <$> points))
  end.

Definition get_heatmap (now : datetime) (metric : string) (hours : option Z)
    (hardware_model antenna_model : option string) (session : Session.t)
    : result HeatmapResponse.t * Session.t :=
  match PingSample.getattr metric with
  | None => (Raise (HTTPException 400 "Unsupported metric."), session)
  | Some column =>
    let query := heatmap_query column now hours hardware_model antenna_model in
    match Session.execute query session with
    | (None, session) => (EngineDefined, session)
    | (Some results, session) =>
        (Return (envelope metric (build_heatmap_points results metric)), session)
    end
  end.

(** The query string of [GET /heatmap]; an absent parameter is [None]. *)
Module HeatmapParams.
Record t := mk {
  metric : option string;
  hours : option Z;
  hardware_model : option string;
  antenna_model : option string
}.
End HeatmapParams.

(** [regex="^(rssi_dbm|snr_db|round_trip_ms)$"]: the whole value is one of
    the three alternatives. *)
Definition supported_metrics : list string := ["rssi_dbm"; "snr_db"; "round_trip_ms"].

Definition metric_matches (metric : string) : bool :=
  bool_decide (metric ∈ supported_metrics).

(** [Query(None, ge=1, le=168)] *)
Definition hours_in_bounds (hours : option Z) : bool :=
  match hours with
  | None => true
  | Some h => (1 <=? h) && (h <=? 168)
  end.

(** A request that fails the declared parameter constraints is answered
    (422) before the handler body runs. *)
Definition GET_heatmap (now : datetime) (params : HeatmapParams.t)
    (db : list PingSample.t) : transcript HeatmapResponse.t :=
  let metric := default "rssi_dbm" (HeatmapParams.metric params) in
  if negb (metric_matches metric)
  then Transcript (Raise (ValidationError "metric")) db []
  else if negb (hours_in_bounds (HeatmapParams.hours params))
  then Transcript (Raise (ValidationError "hours")) db []
  else
    get_session now
      (get_heatmap now metric (HeatmapParams.hours params)
         (HeatmapParams.hardware_model params)
         (HeatmapParams.antenna_model params)) db.

Definition POST_ping_samples (now : datetime) (body : Payload.t)
    (db : list PingSample.t) : transcript (option PingSample.t) :=
  match PingSampleIn.validate body with
  | Return sample => get_session now (create_ping_sample now sample) db
  | Raise e => Transcript (Raise e) db []
  | EngineDefined => Transcript EngineDefined db []
  end.

(** [List[PingSampleIn]]: the first invalid element fails the request. *)
Fixpoint validate_all (body : list Payload.t) : result (list PingSampleIn.t) :=
  match body with
  | [] => Return []
  | p :: body' =>
    match PingSampleIn.validate p with
    | Return sample =>
      match validate_all body' with
      | Return samples => Return (sample :: samples)
      | other => other
      end
    | Raise e => Raise e
    | EngineDefined => EngineDefined
    end
  end.

Definition POST_ping_samples_bulk (now : datetime) (body : list Payload.t)
    (db : list PingSample.t) : transcript (list PingSample.t) :=
  match validate_all body with
  | Return samples => get_session now (create_ping_samples now samples) db
  | Raise e => Transcript (Raise e) db []
  | EngineDefined => Transcript EngineDefined db []
  end.

(** ** cli.py *)

(** [ingest-sample FILE].  [file] is [None] when the path does not exist,
    else the decoded JSON array (a single object counts as a one-element
    array).  The records are only added; the commit at the end of the
    [with] block flushes them. *)
Definition ingest_sample (now : datetime) (file : option (list Payload.t))
    (db : list PingSample.t) : transcript Z :=
  match file with
  | None => Transcript (Raise (Exit 1)) db []
  | Some data =>
    match validate_all data with
    | Return samples =>
        get_session now
          (fun session =>
             (Return (Z.of_nat (length samples)),
              fold_left
                (fun s sample =>
                   Session.add (PingSample.new (PingSampleIn.timestamp sample) sample) s)
                samples session))
          db
    | Raise e => Transcript (Raise e) db []
    | EngineDefined => Transcript EngineDefined db []
    end
  end.

(** What a run of [export-heatmap] leaves behind: the transcript of its
    database session and the files on disk.  The command first calls
    [init_db()], which creates the table when it is missing; the table is
    taken to exist here, and the transcript holds the statements of the
    session only. *)
Record export := Export {
  session_of : transcript string;
  files_of : gmap string Folium.Map
}.

Definition export_heatmap (settings : Settings.t) (now : datetime)
    (output : string) (metric : option string) (hours : option Z)
    (hardware_model antenna_model : option string)
    (db : list PingSample.t) (files : gmap string Folium.Map) : export :=
  let metric := default "rssi_dbm" metric in
  match PingSample.getattr metric with
  | None => Export (Transcript (Raise (Exit 1)) db []) files
  | Some column =>
    let query := heatmap_query column now hours hardware_model antenna_model in
    let t := get_session now (fun session =>
               match Session.execute query session with
               | (None, session) => (EngineDefined, session)
               | (Some results, session) => (Return results, session)
               end) db in
    match outcome t with
    | Return results =>
      match build_heatmap_points results metric with
      | [] => Export (Transcript (Raise (Exit 1)) (database t) (executed t)) files
      | points =>
        let '(r, files) := render_heatmap_html settings points output metric files in
        Export (Transcript r (database t) (executed t)) files
      end
    | Raise e => Export (Transcript (Raise e) (database t) (executed t)) files
    | EngineDefined => Export (Transcript EngineDefined (database t) (executed t)) files
    end
  end.

(** ** api.py: the recent samples *)

(** [ORDER BY created_at DESC]: [a] may come before [b] when it is not
    older.  SQL leaves the order of rows with equal timestamps open; the
    merge sort used here settles it one way, and no property below depends
    on which. *)
Definition not_older (a b : PingSample.t) : Prop :=
  PingSample.created_at b ≤ PingSample.created_at a.

#[global] Instance not_older_dec : RelDecision not_older.
Proof. intros a b. unfold not_older. apply _. Defined.

Definition order_by_created_at_desc (rows : list PingSample.t) : list PingSample.t :=
  merge_sort not_older rows.

(** [select(PingSample).order_by(PingSample.created_at.desc()).limit(limit)],
    executed and returned as it is.  (The statement log of the session keeps
    the aggregation queries only.) *)
Definition recent_ping_samples (limit : Z) (session : Session.t)
    : result (list PingSample.t) * Session.t :=
  (Return (take (Z.to_nat limit) (order_by_created_at_desc (Session.table session))),
   session).

(** [Query(25, ge=1, le=500)] *)
Definition limit_in_bounds (limit : Z) : bool :=
  (1 <=? limit) && (limit <=? 500).

Definition GET_ping_samples_recent (now : datetime) (limit : option Z)
    (db : list PingSample.t) : transcript (list PingSample.t) :=
  let limit := default 25 limit in
  if negb (limit_in_bounds limit)
  then Transcript (Raise (ValidationError "limit")) db []
  else get_session now (recent_ping_samples limit) db.

(** * The vocabulary of the properties *)

(** A filter is active when its value is truthy; [passes] says that a row
    meets every active filter of a request. *)
Definition passes (now : datetime) (hours : option Z)
    (hardware_model antenna_model : option string) (r : PingSample.t) : Prop :=
  (truthy_int hours → now - default 0 hours * 3600000000 ≤ PingSample.created_at r)
  ∧ (truthy_str hardware_model → PingSample.hardware_model r = hardware_model)
  ∧ (truthy_str antenna_model → PingSample.antenna_model r = antenna_model).

(** The samples that contribute to the point at [(la, lo)]: the stored rows
    with exactly these coordinates that pass the active filters. *)
Definition contributors (now : datetime) (hours : option Z)
    (hardware_model antenna_model : option string) (la lo : float)
    (db : list PingSample.t) : list PingSample.t :=
  filter (fun r => PingSample.latitude r = Some la ∧ PingSample.longitude r = Some lo
                   ∧ passes now hours hardware_model antenna_model r) db.

Definition mean (vs : list float) : float :=
  (py_sum vs / Qc_of_Z (Z.of_nat (length vs)))%Qc.

(** The points of a result that lie at [(la, lo)]. *)
Definition points_at (la lo : float) (points : list HeatmapPoint.t)
    : list HeatmapPoint.t :=
  filter (fun p => HeatmapPoint.latitude p = la ∧ HeatmapPoint.longitude p = lo) points.

(** [measured r la lo rssi]: the row [r] was taken at [(la, lo)] and
    carries the signal strength [rssi]. *)
Definition measured (r : PingSample.t) (la lo rssi : Z) : Prop :=
  PingSample.latitude r = Some (Qc_of_Z la)
  ∧ PingSample.longitude r = Some (Qc_of_Z lo)
  ∧ PingSample.rssi_dbm r = Some (Qc_of_Z rssi).

(** No stored sample that the request selects carries a value of the
    metric. *)
Definition no_measurement (now : datetime) (hours : option Z)
    (hardware_model antenna_model : option string)
    (value : PingSample.t → option float) (db : list PingSample.t) : Prop :=
  ∀ r, r ∈ db →
    is_Some (PingSample.latitude r) → is_Some (PingSample.longitude r) →
    passes now hours hardware_model antenna_model r →
    value r = None.

(** The rows a flush inserts for the pending objects [os] on top of the
    table [rows]. *)
Fixpoint inserted (now : datetime) (rows : list PingSample.t)
    (os : list PingSample.transient) : list PingSample.t :=
  match os with
  | [] => []
  | o :: os' =>
      let row := o now (Session.next_id rows) in
      row :: inserted now (rows ++ [row]) os'
  end.

(** [row_of sample row]: the row holds the fields of the validated sample,
    column by column; its [id] and [created_at] are the store's. *)
Definition row_of (sample : PingSampleIn.t) (row : PingSample.t) : Prop :=
  PingSample.origin_node_id row = PingSampleIn.origin_node_id sample
  ∧ PingSample.target_node_id row = PingSampleIn.target_node_id sample
  ∧ PingSample.latitude row = PingSampleIn.latitude sample
  ∧ PingSample.longitude row = PingSampleIn.longitude sample
  ∧ PingSample.altitude_m row = PingSampleIn.altitude_m sample
  ∧ PingSample.rssi_dbm row = PingSampleIn.rssi_dbm sample
  ∧ PingSample.snr_db row = PingSampleIn.snr_db sample
  ∧ PingSample.round_trip_ms row = PingSampleIn.round_trip_ms sample
  ∧ PingSample.hardware_model row = PingSampleIn.hardware_model sample
  ∧ PingSample.firmware_version row = PingSampleIn.firmware_version sample
  ∧ PingSample.antenna_model row = PingSampleIn.antenna_model sample
  ∧ PingSample.antenna_gain_dbi row = PingSampleIn.antenna_gain_dbi sample
  ∧ PingSample.antenna_polarization row = PingSampleIn.antenna_polarization sample
  ∧ PingSample.tx_power_dbm row = PingSampleIn.tx_power_dbm sample
  ∧ PingSample.frequency_mhz row = PingSampleIn.frequency_mhz sample
  ∧ PingSample.channel_id row = PingSampleIn.channel_id sample
  ∧ PingSample.region row = PingSampleIn.region sample.

(** [violates p]: an identifier is missing, or a coordinate that is present
    lies outside its range. *)
Definition violates (p : Payload.t) : Prop :=
  Payload.origin_node_id p = None
  ∨ Payload.target_node_id p = None
  ∨ (∃ x, Payload.latitude p = Some x ∧ ¬ (Qc_of_Z (-90) ≤ x ≤ Qc_of_Z 90)%Qc)
  ∨ (∃ y, Payload.longitude p = Some y ∧ ¬ (Qc_of_Z (-180) ≤ y ≤ Qc_of_Z 180)%Qc).

(** * Example data *)

(** The request [GET /heatmap?metric=rssi_dbm], without filters. *)
Definition rssi_unfiltered : HeatmapParams.t :=
  HeatmapParams.mk (Some "rssi_dbm") None None None.

(** A stored sample with integral coordinates and signal strength, every
    other optional column NULL. *)
Definition reading (key : Z) (created : datetime) (la lo rssi : Z) : PingSample.t :=
  {| PingSample.id := key;
     PingSample.created_at := created;
     PingSample.origin_node_id := "node-a";
     PingSample.target_node_id := "node-b";
     PingSample.latitude := Some (Qc_of_Z la);
     PingSample.longitude := Some (Qc_of_Z lo);
     PingSample.altitude_m := None;
     PingSample.rssi_dbm := Some (Qc_of_Z rssi);
     PingSample.snr_db := None;
     PingSample.round_trip_ms := None;
     PingSample.hardware_model := None;
     PingSample.firmware_version := None;
     PingSample.antenna_model := None;
     PingSample.antenna_gain_dbi := None;
     PingSample.antenna_polarization := None;
     PingSample.tx_power_dbm := None;
     PingSample.frequency_mhz := None;
     PingSample.channel_id := None;
     PingSample.region := None |}.

Definition example_store : list PingSample.t :=
  [ reading 1 0 1 2 (-60); reading 2 0 1 2 (-70); reading 3 0 1 2 (-80);
    reading 4 0 3 4 (-50) ].

Definition example_response : HeatmapResponse.t :=
  match outcome (GET_heatmap 0 rssi_unfiltered example_store) with
  | Return resp => resp
  | _ => HeatmapResponse.mk "" [] None None
  end.

(** A table whose only sample has no coordinates. *)
Definition unlocated_store : list PingSample.t :=
  [ PingSample.mk 1 0 "node-a" "node-b" None None None (Some (Qc_of_Z (-60)))
      None None None None None None None None None None None ].

Definition default_settings : Settings.t :=
  Settings.mk "sqlite:///data/meshcore_heatmap_dev.db" None
    (Q2Qc (3 # 10)) 18 15 18.

(** A payload with the given identifiers, coordinates and signal strength
    and no other key. *)
Definition payload (origin target : option string) (la lo rssi : option float)
    : Payload.t :=
  Payload.mk origin target None la lo None rssi None None None None None None
    None None None None None.

(** The sample [PingSampleIn] makes of such a payload. *)
Definition sample_in (origin target : string) (la lo rssi : option float)
    : PingSampleIn.t :=
  PingSampleIn.mk origin target None la lo None rssi None None None None None
    None None None None None None.

Definition unlocated_sample : PingSampleIn.t :=
  sample_in "node-a" "node-b" None None (Some (Qc_of_Z (-60))).

(** A table whose only sample is old: it was taken at time 0. *)
Definition old_store : list PingSample.t := [reading 1 0 1 2 (-60)].

(** 200 hours after time 0, in microseconds. *)
Definition after_200_hours : datetime := 200 * 3600000000.

(** * Further vocabulary and example data *)

(** A result row with its latitude, longitude and metric value present. *)
Definition complete (r : Row.t) : Prop :=
  is_Some (Row.latitude r) ∧ is_Some (Row.longitude r)
  ∧ is_Some (Row.metric_value r).

(** [point_from p r]: the point [p] shows the row [r]. *)
Definition point_from (p : HeatmapPoint.t) (r : Row.t) : Prop :=
  Row.latitude r = Some (HeatmapPoint.latitude p)
  ∧ Row.longitude r = Some (HeatmapPoint.longitude p)
  ∧ Row.metric_value r = Some (HeatmapPoint.intensity p)
  ∧ HeatmapPoint.samples p
    = match Row.sample_count r with
      | Some n => if decide (n = 0) then 1 else n
      | None => 1
      end
  ∧ HeatmapPoint.latest_seen p = Row.latest_seen r
  ∧ HeatmapPoint.antenna_gain_dbi p = Row.antenna_gain r
  ∧ HeatmapPoint.tx_power_dbm p = Row.tx_power r
  ∧ HeatmapPoint.hardware_model p = Row.hardware_model r.

(** What a marker of the map says: its place, and the value and the count
    in its tooltip. *)
Definition marker_says (m : Folium.CircleMarker) : float * float * float * Z :=
  (Folium.marker_location m, Folium.value (Folium.tooltip m),
   Folium.count (Folium.tooltip m)).

(** The payload that carries the fields of a sample. *)
Definition payload_of (s : PingSampleIn.t) : Payload.t :=
  {| Payload.origin_node_id := Some (PingSampleIn.origin_node_id s);
     Payload.target_node_id := Some (PingSampleIn.target_node_id s);
     Payload.timestamp := PingSampleIn.timestamp s;
     Payload.latitude := PingSampleIn.latitude s;
     Payload.longitude := PingSampleIn.longitude s;
     Payload.altitude_m := PingSampleIn.altitude_m s;
     Payload.rssi_dbm := PingSampleIn.rssi_dbm s;
     Payload.snr_db := PingSampleIn.snr_db s;
     Payload.round_trip_ms := PingSampleIn.round_trip_ms s;
     Payload.hardware_model := PingSampleIn.hardware_model s;
     Payload.firmware_version := PingSampleIn.firmware_version s;
     Payload.antenna_model := PingSampleIn.antenna_model s;
     Payload.antenna_gain_dbi := PingSampleIn.antenna_gain_dbi s;
     Payload.antenna_polarization := PingSampleIn.antenna_polarization s;
     Payload.tx_power_dbm := PingSampleIn.tx_power_dbm s;
     Payload.frequency_mhz := PingSampleIn.frequency_mhz s;
     Payload.channel_id := PingSampleIn.channel_id s;
     Payload.region := PingSampleIn.region s |}.

(** A batch of two payloads, the second without coordinates. *)
Definition example_batch : list Payload.t :=
  [ payload (Some "node-a") (Some "node-b") (Some (Qc_of_Z 1)) (Some (Qc_of_Z 2))
      (Some (Qc_of_Z (-65)));
    payload (Some "node-c") (Some "node-d") None None None ].

Definition example_samples : list PingSampleIn.t :=
  [ sample_in "node-a" "node-b" (Some (Qc_of_Z 1)) (Some (Qc_of_Z 2))
      (Some (Qc_of_Z (-65)));
    sample_in "node-c" "node-d" None None None ].

(** * Properties *)

(** ** Python's [min] and [max] *)

Section min_max.
Local Open Scope Qc_scope.

Lemma fold_keep_lower l x :
  let m := fold_left keep_lower l x in
  (m = x ∨ m ∈ l) ∧ m ≤ x ∧ ∀ y, y ∈ l → m ≤ y.
Proof.
  revert x. induction l as [|a l IH]; intros x; simpl.
  - split; [by left|]. split; [apply Qcle_refl|]. intros y Hy. inversion Hy.
  - pose proof (IH (keep_lower x a)) as (Hin & Hle & Hall).
    assert (Hk : keep_lower x a ≤ x ∧ keep_lower x a ≤ a
                 ∧ (keep_lower x a = x ∨ keep_lower x a = a)).
    { unfold keep_lower. destruct (decide (a < x)) as [Hlt|Hge].
      - split; [by apply Qclt_le_weak|]. split; [apply Qcle_refl|by right].
      - split; [apply Qcle_refl|]. split; [by apply Qcnot_lt_le|by left]. }
    destruct Hk as (Hx & Ha & Hor). repeat split.
    + destruct Hin as [Heq|Hin].
      * rewrite Heq. destruct Hor as [->| ->]; [by left|right; left].
      * right. by right.
    + by eapply Qcle_trans.
    + intros y Hy. apply elem_of_cons in Hy as [->|Hy]; [|by apply Hall].
      by eapply Qcle_trans.
Qed.

Lemma fold_keep_upper l x :
  let m := fold_left keep_upper l x in
  (m = x ∨ m ∈ l) ∧ x ≤ m ∧ ∀ y, y ∈ l → y ≤ m.
Proof.
  revert x. induction l as [|a l IH]; intros x; simpl.
  - split; [by left|]. split; [apply Qcle_refl|]. intros y Hy. inversion Hy.
  - pose proof (IH (keep_upper x a)) as (Hin & Hle & Hall).
    assert (Hk : x ≤ keep_upper x a ∧ a ≤ keep_upper x a
                 ∧ (keep_upper x a = x ∨ keep_upper x a = a)).
    { unfold keep_upper. destruct (decide (x < a)) as [Hlt|Hge].
      - split; [by apply Qclt_le_weak|]. split; [apply Qcle_refl|by right].
      - split; [apply Qcle_refl|]. split; [by apply Qcnot_lt_le|by left]. }
    destruct Hk as (Hx & Ha & Hor). repeat split.
    + destruct Hin as [Heq|Hin].
      * rewrite Heq. destruct Hor as [->| ->]; [by left|right; left].
      * right. by right.
    + by eapply Qcle_trans.
    + intros y Hy. apply elem_of_cons in Hy as [->|Hy]; [|by apply Hall].
      by eapply Qcle_trans.
Qed.

Lemma py_min_spec l m :
  py_min l = Some m → m ∈ l ∧ ∀ y, y ∈ l → m ≤ y.
Proof.
  destruct l as [|x l]; [done|]. intros [= <-].
  pose proof (fold_keep_lower l x) as (Hin & Hle & Hall). split.
  - destruct Hin as [->|Hin]; [left|by right].
  - intros y Hy. apply elem_of_cons in Hy as [->|Hy]; [done|by apply Hall].
Qed.

Lemma py_max_spec l m :
  py_max l = Some m → m ∈ l ∧ ∀ y, y ∈ l → y ≤ m.
Proof.
  destruct l as [|x l]; [done|]. intros [= <-].
  pose proof (fold_keep_upper l x) as (Hin & Hle & Hall). split.
  - destruct Hin as [->|Hin]; [left|by right].
  - intros y Hy. apply elem_of_cons in Hy as [->|Hy]; [done|by apply Hall].
Qed.

Lemma py_min_is_Some l : l ≠ [] → is_Some (py_min l).
Proof. destruct l; [done|]. intros _. by eexists. Qed.

Lemma py_max_is_Some l : l ≠ [] → is_Some (py_max l).
Proof. destruct l; [done|]. intros _. by eexists. Qed.

(** A list has one least and one greatest value, whatever its order. *)
Lemma py_min_unique l m :
  m ∈ l → (∀ y, y ∈ l → m ≤ y) → py_min l = Some m.
Proof.
  intros Hin Hall. destruct (py_min_is_Some l) as [m' Hm'].
  { intros ->. inversion Hin. }
  rewrite Hm'. f_equal. apply py_min_spec in Hm' as [Hin' Hall'].
  apply Qcle_antisym; auto.
Qed.

Lemma py_max_unique l m :
  m ∈ l → (∀ y, y ∈ l → y ≤ m) → py_max l = Some m.
Proof.
  intros Hin Hall. destruct (py_max_is_Some l) as [m' Hm'].
  { intros ->. inversion Hin. }
  rewrite Hm'. f_equal. apply py_max_spec in Hm' as [Hin' Hall'].
  apply Qcle_antisym; auto.
Qed.
End min_max.

(** ** [distinct] *)

Section distinct.
Context {A : Type} `{EqDecision A}.

Lemma elem_of_distinct (x : A) l : x ∈ distinct l ↔ x ∈ l.
Proof.
  induction l as [|a l IH]; simpl; [done|].
  rewrite !elem_of_cons, list_elem_of_filter, IH.
  destruct (decide (x = a)); intuition congruence.
Qed.

Lemma NoDup_distinct (l : list A) : NoDup (distinct l).
Proof.
  induction l as [|a l IH]; simpl; [constructor|].
  constructor; [|by apply NoDup_filter].
  rewrite list_elem_of_filter. intros [Hne _]. by apply Hne.
Qed.
End distinct.

(** ** The query and its groups *)

Lemma heatmap_query_operand a now hours hw ant :
  Query.operand (heatmap_query a now hours hw ant) = a.
Proof.
  unfold heatmap_query.
  by destruct (truthy_int hours), (truthy_str hw), (truthy_str ant).
Qed.

Lemma heatmap_query_where a now hours hw ant :
  Query.where_ (heatmap_query a now hours hw ant) =
    Query.HasCoordinates
    :: (if truthy_int hours
        then [Query.CreatedSince (now - default 0 hours * 3600000000)] else [])
    ++ (if truthy_str hw then [Query.HardwareModelIs (default "" hw)] else [])
    ++ (if truthy_str ant then [Query.AntennaModelIs (default "" ant)] else []).
Proof.
  unfold heatmap_query.
  by destruct (truthy_int hours), (truthy_str hw), (truthy_str ant).
Qed.

Lemma truthy_str_Some o : truthy_str o → o = Some (default "" o).
Proof. by destruct o. Qed.

Lemma selected_heatmap_query a now hours hw ant r :
  Query.selected (heatmap_query a now hours hw ant) r ↔
    is_Some (PingSample.latitude r) ∧ is_Some (PingSample.longitude r)
    ∧ passes now hours hw ant r.
Proof.
  unfold Query.selected, passes. rewrite heatmap_query_where. simpl.
  rewrite !forallb_app, !andb_True, !bool_decide_spec.
  assert (Hhw : ∀ o, truthy_str o → ∀ x : option string, x = Some (default "" o) ↔ x = o).
  { intros o Ho x. by rewrite <-(truthy_str_Some o Ho). }
  destruct (truthy_int hours) eqn:Hh, (truthy_str hw) eqn:Hw,
    (truthy_str ant) eqn:Ha; simpl;
    rewrite ?andb_True, ?bool_decide_spec, ?Z.leb_le, ?Is_true_true;
    rewrite ?(Hhw hw), ?(Hhw ant) by (by apply Is_true_true); 
    intuition (try done; try lia).
Qed.

Lemma group_heatmap_query a now hours hw ant db la lo :
  Query.group (heatmap_query a now hours hw ant) db (Some la, Some lo)
  = contributors now hours hw ant la lo db.
Proof.
  unfold Query.group, contributors. rewrite list_filter_filter.
  apply list_filter_iff. intros r. rewrite selected_heatmap_query.
  unfold PingSample.key. split.
  - intros [[= -> ->] (_ & _ & Hp)]. done.
  - intros (Hla & Hlo & Hp). rewrite Hla, Hlo. split; [done|]. by eauto.
Qed.

Lemma non_null_Some {A B} (f : A → B) (l : list A) :
  non_null ((fun x => Some (f x)) <$> l) = f <$> l.
Proof. induction l as [|x l IH]; [done|]. unfold non_null in *. csimpl. by rewrite IH. Qed.

Lemma sql_avg_mean l :
  non_null l ≠ [] → sql_avg l = Some (mean (non_null l)).
Proof. unfold sql_avg, mean. by destruct (non_null l). Qed.

Lemma sql_avg_None l : non_null l = [] → sql_avg l = None.
Proof. unfold sql_avg. by intros ->. Qed.

Lemma samples_of_count {A} (l : list A) :
  l ≠ [] → samples_of (Some (Z.of_nat (length l))) = Z.of_nat (length l).
Proof.
  intros Hl. unfold samples_of, truthy_int.
  destruct (Z.eqb_spec (Z.of_nat (length l)) 0) as [H0|]; [|done].
  destruct l; [done|]. simpl in H0. lia.
Qed.

(** The point the loop of [build_heatmap_points] makes of the group [g]
    with key [(la, lo)]. *)
Lemma heatmap_point_aggregate value la lo g :
  g ≠ [] →
  heatmap_point (Query.aggregate value (Some la, Some lo) g) =
    match non_null (value <$> g) with
    | [] => None
    | vs => Some
        {| HeatmapPoint.latitude := la;
           HeatmapPoint.longitude := lo;
           HeatmapPoint.intensity := mean vs;
           HeatmapPoint.samples := Z.of_nat (length g);
           HeatmapPoint.latest_seen :=
             sql_max Z.ltb ((fun r => Some (PingSample.created_at r)) <$> g);
           HeatmapPoint.antenna_gain_dbi := sql_avg (PingSample.antenna_gain_dbi <$> g);
           HeatmapPoint.tx_power_dbm := sql_avg (PingSample.tx_power_dbm <$> g);
           HeatmapPoint.hardware_model :=
             sql_max String.ltb (PingSample.hardware_model <$> g) |}
    end.
Proof.
  intros Hg. unfold heatmap_point, Query.aggregate. simpl.
  unfold sql_count. rewrite non_null_Some, length_fmap, samples_of_count by done.
  destruct (non_null (value <$> g)) eqn:Hvs.
  - by rewrite sql_avg_None.
  - rewrite sql_avg_mean, Hvs; [done|]. by rewrite Hvs.
Qed.

(** A key of a selected row is a key of a non-empty group, and conversely. *)
Lemma elem_of_keys q db k :
  k ∈ distinct (PingSample.key <$> filter (fun r => Query.selected q r) db)
  ↔ Query.group q db k ≠ [].
Proof.
  rewrite elem_of_distinct, list_elem_of_fmap. unfold Query.group. split.
  - intros (r & -> & Hr) Hnil.
    by apply (filter_nil_not_elem_of
                (fun r0 => PingSample.key r0 = PingSample.key r) _ r Hnil).
  - intros Hne. destruct (filter _ (filter _ db)) as [|r g] eqn:Hf; [done|].
    assert (Hr : r ∈ filter (fun r => PingSample.key r = k)
                   (filter (fun r => Query.selected q r) db)) by (rewrite Hf; left).
    apply list_elem_of_filter in Hr as [Hk Hr]. by exists r.
Qed.

(** Over distinct keys, a map whose results keep their key puts at most
    one point at each place. *)
Lemma points_at_omap (F : option float * option float → option HeatmapPoint.t) ks la lo :
  NoDup ks →
  (∀ k p, F k = Some p →
     k = (Some (HeatmapPoint.latitude p), Some (HeatmapPoint.longitude p))) →
  points_at la lo (omap F ks) =
    if decide ((Some la, Some lo) ∈ ks) then option_list (F (Some la, Some lo)) else [].
Proof.
  intros Hnd HF. unfold points_at. induction Hnd as [|k ks Hk Hnd IH]; [done|].
  csimpl. destruct (F k) as [p|] eqn:HFk.
  - pose proof (HF _ _ HFk) as Hkey.
    destruct (decide (k = (Some la, Some lo))) as [->|Hne].
    + injection Hkey as Hla Hlo. rewrite filter_cons_True by done.
      rewrite IH, decide_False, decide_True by (done || left).
      by rewrite HFk.
    + rewrite filter_cons_False, IH by (intros [<- <-]; congruence).
      apply decide_ext. rewrite elem_of_cons. intuition congruence.
  - rewrite IH. destruct (decide (k = (Some la, Some lo))) as [->|Hne].
    + rewrite decide_False, decide_True by (done || left). by rewrite HFk.
    + apply decide_ext. rewrite elem_of_cons. intuition congruence.
Qed.

Lemma omap_fmap_compose {A B C} (f : B → option C) (g : A → B) (l : list A) :
  omap f (g <$> l) = omap (fun x => f (g x)) l.
Proof. induction l as [|x l IH]; [done|]. csimpl. by rewrite IH. Qed.

Lemma heatmap_point_key r p :
  heatmap_point r = Some p →
  (Row.latitude r, Row.longitude r)
  = (Some (HeatmapPoint.latitude p), Some (HeatmapPoint.longitude p)).
Proof.
  unfold heatmap_point.
  destruct (Row.latitude r), (Row.longitude r), (Row.metric_value r); try done.
  by intros [= <-].
Qed.

(** The points of the heatmap query at one place: none when no stored
    sample contributes, else what the loop makes of the group. *)
Lemma heatmap_points_at a value now hours hw ant db rows metric la lo :
  Query.value_of a = Some value →
  Query.run (heatmap_query a now hours hw ant) db = Some rows →
  points_at la lo (build_heatmap_points rows metric) =
    match contributors now hours hw ant la lo db with
    | [] => []
    | g => option_list (heatmap_point (Query.aggregate value (Some la, Some lo) g))
    end.
Proof.
  intros Hvalue Hrun. unfold Query.run in Hrun.
  rewrite heatmap_query_operand, Hvalue in Hrun. simpl in Hrun.
  injection Hrun as <-. unfold build_heatmap_points.
  rewrite omap_fmap_compose, points_at_omap.
  - rewrite <-group_heatmap_query with (a := a).
    destruct (decide (_ ∈ _)) as [Hin|Hout].
    + apply elem_of_keys in Hin. by destruct (Query.group _ _ _).
    + destruct (Query.group _ _ _) eqn:Hg; [done|].
      exfalso. apply Hout, elem_of_keys. by rewrite Hg.
  - apply NoDup_distinct.
  - intros [k1 k2] p Hp. by apply heatmap_point_key in Hp.
Qed.

(** ** The two surfaces *)

Lemma supported_metric_value metric :
  metric ∈ supported_metrics →
  ∃ a value, PingSample.getattr metric = Some a ∧ Query.value_of a = Some value.
Proof.
  unfold supported_metrics. rewrite !elem_of_cons, elem_of_nil.
  intros [->|[->|[->|[]]]]; by eexists _, _.
Qed.

Lemma run_heatmap_query a value now hours hw ant db :
  Query.value_of a = Some value →
  is_Some (Query.run (heatmap_query a now hours hw ant) db).
Proof.
  intros Hv. unfold Query.run. rewrite heatmap_query_operand, Hv. by eexists.
Qed.

(** A request that passes validation is answered with the envelope of the
    points of one SELECT, and leaves the table as it was. *)
Lemma GET_heatmap_valid now params db :
  let metric := default "rssi_dbm" (HeatmapParams.metric params) in
  metric ∈ supported_metrics →
  hours_in_bounds (HeatmapParams.hours params) →
  ∃ a value rows,
    PingSample.getattr metric = Some a ∧ Query.value_of a = Some value
    ∧ Query.run (heatmap_query a now (HeatmapParams.hours params)
                   (HeatmapParams.hardware_model params)
                   (HeatmapParams.antenna_model params)) db = Some rows
    ∧ GET_heatmap now params db =
        Transcript (Return (envelope metric (build_heatmap_points rows metric))) db
          [heatmap_query a now (HeatmapParams.hours params)
             (HeatmapParams.hardware_model params)
             (HeatmapParams.antenna_model params)].
Proof.
  intros metric Hm Hh.
  destruct (supported_metric_value metric Hm) as (a & value & Ha & Hv).
  destruct (run_heatmap_query a value now (HeatmapParams.hours params)
              (HeatmapParams.hardware_model params)
              (HeatmapParams.antenna_model params) db Hv) as [rows Hrows].
  exists a, value, rows. repeat split; try done.
  unfold GET_heatmap. fold metric. unfold metric_matches.
  rewrite bool_decide_eq_true_2 by done. simpl.
  apply Is_true_true in Hh. rewrite Hh. simpl.
  unfold get_session, get_heatmap. rewrite Ha. unfold Session.execute. simpl.
  by rewrite Hrows.
Qed.

(** Every answer of [GET /heatmap] comes from a request that passed
    validation. *)
Lemma GET_heatmap_Return now params db resp :
  outcome (GET_heatmap now params db) = Return resp →
  default "rssi_dbm" (HeatmapParams.metric params) ∈ supported_metrics
  ∧ hours_in_bounds (HeatmapParams.hours params).
Proof.
  unfold GET_heatmap, metric_matches.
  destruct (bool_decide _) eqn:Hm; simpl; [|done].
  destruct (hours_in_bounds _) eqn:Hh; simpl; [|done].
  intros _. split; [by apply bool_decide_eq_true in Hm|done].
Qed.

Lemma points_envelope metric points :
  HeatmapResponse.points (envelope metric points) = points.
Proof. by destruct points. Qed.

(** ** Aggregation: one point per group, its mean and its count *)


(** ** The envelope *)

(** C9. When the point list of an answer of [GET /heatmap] is not empty,
    [min_value] is the least and [max_value] the greatest intensity among
    the returned points, so every intensity lies between them; when the
    list is empty both are null. *)
Theorem C9_envelope_bounds now params db resp :
  outcome (GET_heatmap now params db) = Return resp →
  match HeatmapResponse.points resp with
  | [] => HeatmapResponse.min_value resp = None
          ∧ HeatmapResponse.max_value resp = None
  | points =>
      ∃ lo hi,
        HeatmapResponse.min_value resp = Some lo
        ∧ HeatmapResponse.max_value resp = Some hi
        ∧ lo ∈ HeatmapPoint.intensity <$> points
        ∧ hi ∈ HeatmapPoint.intensity <$> points
        ∧ ∀ p, p ∈ points →
            (lo ≤ HeatmapPoint.intensity p)%Qc ∧ (HeatmapPoint.intensity p ≤ hi)%Qc
  end.
Proof.
  intros Hresp. pose proof (GET_heatmap_Return _ _ _ _ Hresp) as [Hm Hh].
  destruct (GET_heatmap_valid now params db Hm Hh)
    as (a & value & rows & _ & _ & _ & Heq).
  rewrite Heq in Hresp. injection Hresp as <-.
  destruct (build_heatmap_points rows _) as [|p0 points] eqn:Hpts; [done|].
  simpl.
  destruct (py_min_is_Some (HeatmapPoint.intensity <$> p0 :: points)) as [lo Hlo]; [done|].
  destruct (py_max_is_Some (HeatmapPoint.intensity <$> p0 :: points)) as [hi Hhi]; [done|].
  exists lo, hi. simpl in Hlo, Hhi. rewrite Hlo, Hhi.
  apply (py_min_spec (_ :: _)) in Hlo as [Hlo_in Hlo_le].
  apply (py_max_spec (_ :: _)) in Hhi as [Hhi_in Hhi_le].
  repeat split; try done.
  - apply Hlo_le. by apply (list_elem_of_fmap_2 HeatmapPoint.intensity) in H.
  - apply Hhi_le. by apply (list_elem_of_fmap_2 HeatmapPoint.intensity) in H.
Qed.

(** ** Order of the stored rows *)

Lemma py_sum_Permutation vs ws : vs ≡ₚ ws → py_sum vs = py_sum ws.
Proof.
  unfold py_sum. induction 1 as [|x vs ws _ IH|x y vs|vs ws us _ IH1 _ IH2]; simpl.
  - done.
  - by rewrite IH.
  - rewrite !Qcplus_assoc. f_equal. apply Qcplus_comm.
  - by rewrite IH1.
Qed.

Lemma mean_Permutation vs ws : vs ≡ₚ ws → mean vs = mean ws.
Proof.
  intros H. unfold mean.
  by rewrite (py_sum_Permutation _ _ H), (Permutation_length H).
Qed.

Lemma non_null_Permutation {A} (l k : list (option A)) :
  l ≡ₚ k → non_null l ≡ₚ non_null k.
Proof. intros H. unfold non_null. by rewrite H. Qed.

Lemma contributors_Permutation now hours hw ant la lo db db' :
  db ≡ₚ db' →
  contributors now hours hw ant la lo db ≡ₚ contributors now hours hw ant la lo db'.
Proof. intros H. unfold contributors. by rewrite H. Qed.

(** Every returned point lies where some stored sample contributes. *)
Lemma point_has_contributor a value now hours hw ant db rows metric p :
  Query.value_of a = Some value →
  Query.run (heatmap_query a now hours hw ant) db = Some rows →
  p ∈ build_heatmap_points rows metric →
  contributors now hours hw ant
    (HeatmapPoint.latitude p) (HeatmapPoint.longitude p) db ≠ [].
Proof.
  intros Hv Hrun Hp Hnil.
  assert (Hin : p ∈ points_at (HeatmapPoint.latitude p) (HeatmapPoint.longitude p)
                  (build_heatmap_points rows metric)).
  { unfold points_at. by apply list_elem_of_filter. }
  rewrite (heatmap_points_at _ _ _ _ _ _ _ _ _ _ _ Hv Hrun), Hnil in Hin.
  inversion Hin.
Qed.

Lemma filter_ext_elem_of {A} (P Q : A → Prop) `{!∀ x, Decision (P x)}
    `{!∀ x, Decision (Q x)} (l : list A) :
  (∀ x, x ∈ l → P x ↔ Q x) → filter P l = filter Q l.
Proof.
  induction l as [|x l IH]; intros Hl; [done|].
  rewrite !filter_cons.
  rewrite IH by (intros y Hy; apply Hl; by right).
  apply decide_ext, Hl. left.
Qed.

(** A result whose points all lie at one of two different places is made
    of the points at the first and the points at the second. *)
Lemma points_at_two la1 lo1 la2 lo2 points :
  (la1, lo1) ≠ (la2, lo2) →
  (∀ p, p ∈ points →
     (HeatmapPoint.latitude p, HeatmapPoint.longitude p) = (la1, lo1)
     ∨ (HeatmapPoint.latitude p, HeatmapPoint.longitude p) = (la2, lo2)) →
  points ≡ₚ points_at la1 lo1 points ++ points_at la2 lo2 points.
Proof.
  intros Hne Hall.
  rewrite <-(filter_app_complement
    (fun p => HeatmapPoint.latitude p = la1 ∧ HeatmapPoint.longitude p = lo1) points)
    at 1.
  unfold points_at. f_equiv. apply Permutation_refl'.
  apply filter_ext_elem_of. intros p Hp.
  destruct (Hall p Hp) as [[= -> ->]|[= -> ->]].
  - split; [intros H; by destruct H|]. intros [-> ->]. by destruct Hne.
  - split; [done|]. intros _ [-> ->]. by destruct Hne.
Qed.

(** ** The worked example *)

Lemma Qc_of_Z_inj m n : Qc_of_Z m = Qc_of_Z n → m = n.
Proof. intros H. by injection H. Qed.

Lemma passes_unfiltered now r : passes now None None None r.
Proof. by repeat split. Qed.

Lemma envelope_eq metric points :
  envelope metric points =
    HeatmapResponse.mk metric points
      (py_min (HeatmapPoint.intensity <$> points))
      (py_max (HeatmapPoint.intensity <$> points)).
Proof. by destruct points. Qed.

(** C1. A store holding exactly three samples at (1.0, 2.0) with RSSI -60,
    -70 and -80 and one sample at (3.0, 4.0) with RSSI -50, in any order and
    with any other fields, answers the unfiltered RSSI query with exactly
    two points: one at (1.0, 2.0) with intensity -70.0 and 3 samples, one at
    (3.0, 4.0) with intensity -50.0 and 1 sample; [min_value] is -70.0 and
    [max_value] is -50.0. *)
Theorem C1_worked_example now db r1 r2 r3 r4 :
  db ≡ₚ [r1; r2; r3; r4] →
  measured r1 1 2 (-60) → measured r2 1 2 (-70) → measured r3 1 2 (-80) →
  measured r4 3 4 (-50) →
  ∃ resp p1 p2,
    outcome (GET_heatmap now rssi_unfiltered db) = Return resp
    ∧ HeatmapResponse.points resp ≡ₚ [p1; p2]
    ∧ HeatmapPoint.latitude p1 = Qc_of_Z 1 ∧ HeatmapPoint.longitude p1 = Qc_of_Z 2
    ∧ HeatmapPoint.intensity p1 = Qc_of_Z (-70) ∧ HeatmapPoint.samples p1 = 3
    ∧ HeatmapPoint.latitude p2 = Qc_of_Z 3 ∧ HeatmapPoint.longitude p2 = Qc_of_Z 4
    ∧ HeatmapPoint.intensity p2 = Qc_of_Z (-50) ∧ HeatmapPoint.samples p2 = 1
    ∧ HeatmapResponse.min_value resp = Some (Qc_of_Z (-70))
    ∧ HeatmapResponse.max_value resp = Some (Qc_of_Z (-50)).
Proof.
  intros Hdb (Hla1 & Hlo1 & Hv1) (Hla2 & Hlo2 & Hv2) (Hla3 & Hlo3 & Hv3)
    (Hla4 & Hlo4 & Hv4).
  destruct (GET_heatmap_valid now rssi_unfiltered db)
    as (a & value & rows & Ha & Hv & Hrows & Heq);
    [apply list_elem_of_here|done|].
  injection Ha as <-. injection Hv as <-. simpl in Hrows.
  set (points := build_heatmap_points rows "rssi_dbm") in *.
  (* the two groups *)
  assert (Hg1 : contributors now None None None (Qc_of_Z 1) (Qc_of_Z 2) db
                ≡ₚ [r1; r2; r3]).
  { rewrite (contributors_Permutation _ _ _ _ _ _ _ _ Hdb). unfold contributors.
    rewrite !filter_cons_True by (split_and!; auto using passes_unfiltered).
    rewrite filter_cons_False; [done|].
    rewrite Hla4. intros [[= ] _]. }
  assert (Hg2 : contributors now None None None (Qc_of_Z 3) (Qc_of_Z 4) db
                ≡ₚ [r4]).
  { rewrite (contributors_Permutation _ _ _ _ _ _ _ _ Hdb). unfold contributors.
    rewrite !filter_cons_False by
      (rewrite ?Hla1, ?Hla2, ?Hla3; by intros [[= ] _]).
    rewrite filter_cons_True by (split_and!; auto using passes_unfiltered).
    done. }
  (* the points at the two places *)
  pose proof (heatmap_points_at (PingSample.AColumn Column.rssi_dbm)
                PingSample.rssi_dbm now None None None db rows "rssi_dbm"
                (Qc_of_Z 1) (Qc_of_Z 2) eq_refl Hrows) as H1.
  pose proof (heatmap_points_at (PingSample.AColumn Column.rssi_dbm)
                PingSample.rssi_dbm now None None None db rows "rssi_dbm"
                (Qc_of_Z 3) (Qc_of_Z 4) eq_refl Hrows) as H2.
  fold points in H1, H2.
  destruct (contributors now None None None (Qc_of_Z 1) (Qc_of_Z 2) db)
    as [|c1 g1] eqn:E1; [by apply Permutation_nil_l in Hg1|].
  destruct (contributors now None None None (Qc_of_Z 3) (Qc_of_Z 4) db)
    as [|c2 g2] eqn:E2; [by apply Permutation_nil_l in Hg2|].
  rewrite heatmap_point_aggregate in H1, H2 by done.
  rewrite (Permutation_length Hg1) in H1. rewrite (Permutation_length Hg2) in H2.
  assert (Hvs1 : non_null (PingSample.rssi_dbm <$> c1 :: g1)
                 ≡ₚ [Qc_of_Z (-60); Qc_of_Z (-70); Qc_of_Z (-80)]).
  { rewrite (non_null_Permutation _ _ (fmap_Permutation _ _ _ Hg1)).
    unfold non_null. csimpl. by rewrite Hv1, Hv2, Hv3. }
  assert (Hvs2 : non_null (PingSample.rssi_dbm <$> c2 :: g2) ≡ₚ [Qc_of_Z (-50)]).
  { rewrite (non_null_Permutation _ _ (fmap_Permutation _ _ _ Hg2)).
    unfold non_null. csimpl. by rewrite Hv4. }
  destruct (non_null (PingSample.rssi_dbm <$> c1 :: g1)) as [|v1 vs1] eqn:Ev1;
    [by apply Permutation_nil_l in Hvs1|].
  destruct (non_null (PingSample.rssi_dbm <$> c2 :: g2)) as [|v2 vs2] eqn:Ev2;
    [by apply Permutation_nil_l in Hvs2|].
  cbv beta iota in H1, H2.
  rewrite (mean_Permutation _ _ Hvs1) in H1.
  rewrite (mean_Permutation _ _ Hvs2) in H2.
  assert (Hm1 : mean [Qc_of_Z (-60); Qc_of_Z (-70); Qc_of_Z (-80)] = Qc_of_Z (-70))
    by (by apply Qc_is_canon).
  assert (Hm2 : mean [Qc_of_Z (-50)] = Qc_of_Z (-50)) by (by apply Qc_is_canon).
  rewrite Hm1 in H1. rewrite Hm2 in H2.
  (* every point lies at one of the two places *)
  assert (Hplaces : ∀ p, p ∈ points →
    (HeatmapPoint.latitude p, HeatmapPoint.longitude p) = (Qc_of_Z 1, Qc_of_Z 2)
    ∨ (HeatmapPoint.latitude p, HeatmapPoint.longitude p) = (Qc_of_Z 3, Qc_of_Z 4)).
  { intros p Hp.
    pose proof (point_has_contributor (PingSample.AColumn Column.rssi_dbm)
                  PingSample.rssi_dbm now None None None db rows "rssi_dbm" p
                  eq_refl Hrows Hp) as Hc.
    destruct (contributors now None None None (HeatmapPoint.latitude p)
                (HeatmapPoint.longitude p) db) as [|r g] eqn:Er; [done|].
    assert (Hr : r ∈ contributors now None None None
                   (HeatmapPoint.latitude p) (HeatmapPoint.longitude p) db)
      by (rewrite Er; left).
    apply list_elem_of_filter in Hr as ((Hla & Hlo & _) & Hr).
    rewrite Hdb in Hr. rewrite !elem_of_cons, elem_of_nil in Hr.
    destruct Hr as [->|[->|[->|[->|[]]]]]; [left|left|left|right]; congruence. }
  assert (Hne : (Qc_of_Z 1, Qc_of_Z 2) ≠ (Qc_of_Z 3, Qc_of_Z 4)).
  { intros Hpair. apply (f_equal fst), Qc_of_Z_inj in Hpair. lia. }
  pose proof (points_at_two _ _ _ _ points Hne Hplaces) as Hperm.
  rewrite H1, H2 in Hperm. simpl in Hperm.
  eexists _, _, _. rewrite Heq. split; [done|].
  unfold rssi_unfiltered; simpl. fold points. rewrite envelope_eq. simpl.
  split; [exact Hperm|]. do 8 (split; [done|]).
  split.
  - apply py_min_unique.
    + rewrite Hperm. simpl. left.
    + intros y. rewrite Hperm. simpl. rewrite !elem_of_cons, elem_of_nil.
      intros [->|[->|[]]]; apply (bool_decide_unpack _); by vm_compute.
  - apply py_max_unique.
    + rewrite Hperm. simpl. right. left.
    + intros y. rewrite Hperm. simpl. rewrite !elem_of_cons, elem_of_nil.
      intros [->|[->|[]]]; apply (bool_decide_unpack _); by vm_compute.
Qed.

(** The worked example on [example_store]. *)
Lemma C1_worked_example_witness :
  ∃ resp p1 p2,
    outcome (GET_heatmap 0 rssi_unfiltered example_store) = Return resp
    ∧ HeatmapResponse.points resp ≡ₚ [p1; p2]
    ∧ HeatmapPoint.latitude p1 = Qc_of_Z 1 ∧ HeatmapPoint.longitude p1 = Qc_of_Z 2
    ∧ HeatmapPoint.intensity p1 = Qc_of_Z (-70) ∧ HeatmapPoint.samples p1 = 3
    ∧ HeatmapPoint.latitude p2 = Qc_of_Z 3 ∧ HeatmapPoint.longitude p2 = Qc_of_Z 4
    ∧ HeatmapPoint.intensity p2 = Qc_of_Z (-50) ∧ HeatmapPoint.samples p2 = 1
    ∧ HeatmapResponse.min_value resp = Some (Qc_of_Z (-70))
    ∧ HeatmapResponse.max_value resp = Some (Qc_of_Z (-50)).
Proof.
  apply (C1_worked_example 0 example_store
           (reading 1 0 1 2 (-60)) (reading 2 0 1 2 (-70))
           (reading 3 0 1 2 (-80)) (reading 4 0 3 4 (-50)));
    [reflexivity | | | | ]; repeat split.
Defined.


(** The bounds of the answer for [example_store]. *)
Lemma C9_envelope_bounds_witness :
  ∃ lo hi,
    HeatmapResponse.min_value example_response = Some lo
    ∧ HeatmapResponse.max_value example_response = Some hi
    ∧ lo ∈ HeatmapPoint.intensity <$> HeatmapResponse.points example_response
    ∧ hi ∈ HeatmapPoint.intensity <$> HeatmapResponse.points example_response
    ∧ ∀ p, p ∈ HeatmapResponse.points example_response →
        (lo ≤ HeatmapPoint.intensity p)%Qc ∧ (HeatmapPoint.intensity p ≤ hi)%Qc.
Proof.
  apply (C9_envelope_bounds 0 rssi_unfiltered example_store example_response).
  reflexivity.
Defined.

(** ** Empty results *)

Lemma export_heatmap_valid settings now output metric hours hw ant db files :
  let name := default "rssi_dbm" metric in
  name ∈ supported_metrics →
  ∃ a value rows,
    PingSample.getattr name = Some a ∧ Query.value_of a = Some value
    ∧ Query.run (heatmap_query a now hours hw ant) db = Some rows
    ∧ export_heatmap settings now output metric hours hw ant db files =
        match build_heatmap_points rows name with
        | [] => Export (Transcript (Raise (Exit 1)) db
                          [heatmap_query a now hours hw ant]) files
        | points =>
            Export (Transcript (Return output) db [heatmap_query a now hours hw ant])
              (render_heatmap_html settings points output name files).2
        end.
Proof.
  intros name Hm.
  destruct (supported_metric_value name Hm) as (a & value & Ha & Hv).
  destruct (run_heatmap_query a value now hours hw ant db Hv) as [rows Hrows].
  exists a, value, rows. repeat split; try done.
  unfold export_heatmap. fold name. rewrite Ha.
  unfold get_session, Session.execute. simpl. rewrite Hrows. simpl.
  by destruct (build_heatmap_points rows name).
Qed.

Lemma non_null_all_None {A B} (f : A → option B) (l : list A) :
  (∀ x, x ∈ l → f x = None) → non_null (f <$> l) = [].
Proof.
  induction l as [|x l IH]; intros Hl; [done|].
  unfold non_null in *. csimpl. rewrite (Hl x) by left. simpl.
  apply IH. intros y Hy. apply Hl. by right.
Qed.

Lemma no_measurement_no_points a value now hours hw ant db rows metric :
  Query.value_of a = Some value →
  Query.run (heatmap_query a now hours hw ant) db = Some rows →
  no_measurement now hours hw ant value db →
  build_heatmap_points rows metric = [].
Proof.
  intros Hv Hrun Hnone.
  destruct (build_heatmap_points rows metric) as [|p ps] eqn:Hpts; [done|].
  assert (Hp : p ∈ build_heatmap_points rows metric) by (rewrite Hpts; left).
  pose proof (point_has_contributor _ _ _ _ _ _ _ _ _ _ Hv Hrun Hp) as Hc.
  assert (Hin : p ∈ points_at (HeatmapPoint.latitude p) (HeatmapPoint.longitude p)
                  (build_heatmap_points rows metric)).
  { unfold points_at. by apply list_elem_of_filter. }
  rewrite (heatmap_points_at _ _ _ _ _ _ _ _ _ _ _ Hv Hrun) in Hin.
  destruct (contributors now hours hw ant (HeatmapPoint.latitude p)
              (HeatmapPoint.longitude p) db) as [|r g] eqn:Hg; [done|].
  rewrite heatmap_point_aggregate, non_null_all_None in Hin; [inversion Hin| |done].
  intros x Hx. rewrite <-Hg in Hx.
  apply list_elem_of_filter in Hx as ((Hla & Hlo & Hpass) & Hx).
  apply Hnone; rewrite ?Hla, ?Hlo; by eauto.
Qed.

(** C6. Rendering an empty point list to HTML raises the error of an empty
    dataset and leaves the files as they were.  When no sample selected by
    a request carries a value of the metric, [export-heatmap] exits with
    code 1 and writes no file, while [GET /heatmap] answers the same request
    with a well-formed envelope: the metric, an empty point list, and null
    [min_value] and [max_value]. *)
Theorem C6_empty_result_asymmetry settings now output params db files a value :
  let metric := default "rssi_dbm" (HeatmapParams.metric params) in
  let hours := HeatmapParams.hours params in
  let hardware_model := HeatmapParams.hardware_model params in
  let antenna_model := HeatmapParams.antenna_model params in
  metric ∈ supported_metrics →
  hours_in_bounds hours →
  PingSample.getattr metric = Some a →
  Query.value_of a = Some value →
  no_measurement now hours hardware_model antenna_model value db →
  render_heatmap_html settings [] output metric files
    = (Raise (ValueError "No heatmap points available to render."), files)
  ∧ (let e := export_heatmap settings now output (HeatmapParams.metric params)
                hours hardware_model antenna_model db files in
     outcome (session_of e) = Raise (Exit 1) ∧ files_of e = files)
  ∧ outcome (GET_heatmap now params db)
    = Return (HeatmapResponse.mk metric [] None None).
Proof.
  intros metric hours hw ant Hm Hh Ha Hv Hnone. split; [done|]. split.
  - destruct (export_heatmap_valid settings now output
                (HeatmapParams.metric params) hours hw ant db files Hm)
      as (a' & value' & rows & Ha' & Hv' & Hrows & ->).
    fold metric in Ha'. rewrite Ha in Ha'. injection Ha' as <-.
    rewrite Hv in Hv'. injection Hv' as <-.
    by rewrite (no_measurement_no_points _ _ _ _ _ _ _ _ _ Hv Hrows Hnone).
  - destruct (GET_heatmap_valid now params db Hm Hh)
      as (a' & value' & rows & Ha' & Hv' & Hrows & ->).
    fold metric in Ha'. rewrite Ha in Ha'. injection Ha' as <-.
    rewrite Hv in Hv'. injection Hv' as <-. simpl.
    by rewrite (no_measurement_no_points _ _ _ _ _ _ _ _ _ Hv Hrows Hnone).
Qed.

(** The two surfaces on a table whose only sample has no coordinates. *)
Lemma C6_empty_result_asymmetry_witness :
  render_heatmap_html default_settings [] "out.html" "rssi_dbm" ∅
    = (Raise (ValueError "No heatmap points available to render."), ∅)
  ∧ (let e := export_heatmap default_settings 0 "out.html" (Some "rssi_dbm")
                None None None unlocated_store ∅ in
     outcome (session_of e) = Raise (Exit 1) ∧ files_of e = ∅)
  ∧ outcome (GET_heatmap 0 rssi_unfiltered unlocated_store)
    = Return (HeatmapResponse.mk "rssi_dbm" [] None None).
Proof.
  apply (C6_empty_result_asymmetry default_settings 0 "out.html" rssi_unfiltered
           unlocated_store ∅ (PingSample.AColumn Column.rssi_dbm)
           PingSample.rssi_dbm);
    [apply list_elem_of_here | done | done | done |].
  intros r Hr [la Hla] _ _. apply list_elem_of_singleton in Hr. by subst r.
Defined.

(** ** Ingestion *)

Lemma fold_insert now os s :
  Session.pending s = [] →
  fold_left (Session.insert now) os s =
    Session.mk (Session.table s ++ inserted now (Session.table s) os) []
      (Session.persistent s ++ inserted now (Session.table s) os)
      (Session.statements s).
Proof.
  revert s. induction os as [|o os IH]; intros s Hs; simpl.
  - rewrite !app_nil_r. destruct s; simpl in *. by subst.
  - rewrite IH by done. simpl. by rewrite <-!app_assoc.
Qed.

Lemma table_flush now s :
  Session.table (Session.flush now s)
  = Session.table s ++ inserted now (Session.table s) (Session.pending s).
Proof. unfold Session.flush. by rewrite fold_insert. Qed.

Lemma pending_flush now s : Session.pending (Session.flush now s) = [].
Proof. unfold Session.flush. by rewrite fold_insert. Qed.

Lemma fold_add (f : PingSampleIn.t → PingSample.transient) samples s :
  fold_left (fun s sample => Session.add (f sample) s) samples s
  = Session.mk (Session.table s) (Session.pending s ++ (f <$> samples))
      (Session.persistent s) (Session.statements s).
Proof.
  revert s. induction samples as [|x l IH]; intros s; simpl.
  - rewrite app_nil_r. by destruct s.
  - rewrite IH. simpl. by rewrite <-app_assoc.
Qed.

Lemma row_of_new created sample now key :
  row_of sample (PingSample.new created sample now key).
Proof. unfold row_of. by split_and!. Qed.

Lemma inserted_row_of now rows (f : PingSampleIn.t → PingSample.transient) samples sample :
  (∀ s, ∃ created, f s = PingSample.new created s) →
  sample ∈ samples →
  ∃ row, row_of sample row ∧ row ∈ inserted now rows (f <$> samples).
Proof.
  intros Hf Hin. revert rows.
  induction Hin as [sample l|sample x l _ IH]; intros rows; csimpl.
  - destruct (Hf sample) as [created ->].
    eexists. split; [apply row_of_new|left].
  - destruct (IH (rows ++ [f x now (Session.next_id rows)])) as (row & Hrow & Hin').
    exists row. split; [done|by right].
Qed.

(** What each ingestion surface leaves in the table. *)
Lemma POST_ping_samples_database now body sample db :
  PingSampleIn.validate body = Return sample →
  database (POST_ping_samples now body db)
  = db ++ [record_of now sample now (Session.next_id db)].
Proof. intros Hv. unfold POST_ping_samples. by rewrite Hv. Qed.

Lemma POST_ping_samples_bulk_database now body samples db :
  validate_all body = Return samples →
  samples ≠ [] →
  database (POST_ping_samples_bulk now body db)
  = db ++ inserted now db (record_of now <$> samples).
Proof.
  intros Hv Hne. unfold POST_ping_samples_bulk. rewrite Hv.
  unfold get_session, create_ping_samples.
  destruct samples as [|x l]; [done|].
  rewrite fold_add. simpl. unfold Session.commit.
  rewrite table_flush, pending_flush, table_flush. simpl. by rewrite app_nil_r.
Qed.

Lemma ingest_sample_database now data samples db :
  validate_all data = Return samples →
  database (ingest_sample now (Some data) db)
  = db ++ inserted now db
            ((fun s => PingSample.new (PingSampleIn.timestamp s) s) <$> samples).
Proof.
  intros Hv. unfold ingest_sample. rewrite Hv. unfold get_session.
  rewrite fold_add. simpl. unfold Session.commit. by rewrite table_flush.
Qed.

Lemma length_inserted now rows os : length (inserted now rows os) = length os.
Proof.
  revert rows. induction os as [|o os IH]; intros rows; simpl; [done|].
  by rewrite IH.
Qed.

(** ** Empty batches *)

(** C8. A bulk request with an empty list is answered with the error 400
    "No samples provided.": the handler raises before it adds or flushes
    anything, so its session is untouched, and the request leaves the table
    as it was and sends no statement.  Only the empty list is refused so: a
    validated batch that is not empty adds one row per sample. *)
Theorem C8_empty_batch_rejected now :
  (∀ session,
     create_ping_samples now [] session
     = (Raise (HTTPException 400 "No samples provided."), session))
  ∧ (∀ db,
       POST_ping_samples_bulk now [] db
       = Transcript (Raise (HTTPException 400 "No samples provided.")) db [])
  ∧ (∀ body samples db,
       validate_all body = Return samples → samples ≠ [] →
       length (database (POST_ping_samples_bulk now body db))
       = (length db + length samples)%nat).
Proof.
  split_and!.
  - done.
  - done.
  - intros body samples db Hv Hne.
    rewrite (POST_ping_samples_bulk_database _ _ _ _ Hv Hne).
    by rewrite length_app, length_inserted, length_fmap.
Qed.

(** ** Samples without coordinates *)

Lemma selected_app_unlocated a now hours hw ant before row after :
  PingSample.latitude row = None ∨ PingSample.longitude row = None →
  filter (fun r => Query.selected (heatmap_query a now hours hw ant) r)
    (before ++ row :: after)
  = filter (fun r => Query.selected (heatmap_query a now hours hw ant) r)
      (before ++ after).
Proof.
  intros Hnull. rewrite !filter_app, filter_cons_False; [done|].
  rewrite selected_heatmap_query. intros ([? Hla] & [? Hlo] & _).
  destruct Hnull; congruence.
Qed.

Lemma run_app_unlocated a now hours hw ant before row after :
  PingSample.latitude row = None ∨ PingSample.longitude row = None →
  Query.run (heatmap_query a now hours hw ant) (before ++ row :: after)
  = Query.run (heatmap_query a now hours hw ant) (before ++ after).
Proof.
  intros Hnull. unfold Query.run, Query.group.
  by rewrite (selected_app_unlocated _ _ _ _ _ _ _ _ Hnull).
Qed.

Lemma row_of_coordinates sample row :
  row_of sample row →
  PingSample.latitude row = PingSampleIn.latitude sample
  ∧ PingSample.longitude row = PingSampleIn.longitude sample.
Proof. by intros (_ & _ & Hla & Hlo & _). Qed.

(** C4. A validated sample whose latitude or longitude is null is stored by
    every ingestion surface (single, bulk, file), and its row contributes to
    no heatmap: for every metric and every filter, the answer of
    [GET /heatmap] and the outcome and files of [export-heatmap] are the
    same with the row in the table as without it. *)
Theorem C4_unlocated_stored_not_aggregated sample :
  PingSampleIn.latitude sample = None ∨ PingSampleIn.longitude sample = None →
  (∀ now body db,
     PingSampleIn.validate body = Return sample →
     ∃ row, row_of sample row ∧ row ∈ database (POST_ping_samples now body db))
  ∧ (∀ now body samples db,
       validate_all body = Return samples → sample ∈ samples →
       ∃ row, row_of sample row ∧ row ∈ database (POST_ping_samples_bulk now body db))
  ∧ (∀ now data samples db,
       validate_all data = Return samples → sample ∈ samples →
       ∃ row, row_of sample row ∧ row ∈ database (ingest_sample now (Some data) db))
  ∧ (∀ row now params before after,
       row_of sample row →
       outcome (GET_heatmap now params (before ++ row :: after))
       = outcome (GET_heatmap now params (before ++ after)))
  ∧ (∀ row settings now output metric hours hardware_model antenna_model
        before after files,
       row_of sample row →
       let with_row := export_heatmap settings now output metric hours
                         hardware_model antenna_model (before ++ row :: after) files in
       let without := export_heatmap settings now output metric hours
                        hardware_model antenna_model (before ++ after) files in
       outcome (session_of with_row) = outcome (session_of without)
       ∧ files_of with_row = files_of without).
Proof.
  intros Hnull. split_and!.
  - intros now body db Hv. eexists. split.
    + apply (row_of_new (Some (default now (PingSampleIn.timestamp sample)))
               sample now (Session.next_id db)).
    + rewrite (POST_ping_samples_database _ _ _ _ Hv). apply elem_of_app. right. left.
  - intros now body samples db Hv Hin.
    destruct (inserted_row_of now db (record_of now) samples sample)
      as (row & Hrow & Hrow_in); [by eexists|done|].
    exists row. split; [done|].
    rewrite (POST_ping_samples_bulk_database _ _ _ _ Hv) by (by intros ->; inversion Hin).
    apply elem_of_app. by right.
  - intros now data samples db Hv Hin.
    destruct (inserted_row_of now db
                (fun s => PingSample.new (PingSampleIn.timestamp s) s) samples sample)
      as (row & Hrow & Hrow_in); [by eexists|done|].
    exists row. split; [done|].
    rewrite (ingest_sample_database _ _ _ _ Hv). apply elem_of_app. by right.
  - intros row now params before after [Hla Hlo]%row_of_coordinates.
    assert (Hrow : PingSample.latitude row = None ∨ PingSample.longitude row = None)
      by (rewrite Hla, Hlo; done).
    unfold GET_heatmap. destruct (negb _); [done|]. destruct (negb _); [done|].
    unfold get_session, get_heatmap.
    destruct (PingSample.getattr _) as [a|]; [|done].
    unfold Session.execute. simpl.
    rewrite (run_app_unlocated _ _ _ _ _ _ _ _ Hrow).
    by destruct (Query.run _ _).
  - intros row settings now output metric hours hw ant before after files
      [Hla Hlo]%row_of_coordinates.
    assert (Hrow : PingSample.latitude row = None ∨ PingSample.longitude row = None)
      by (rewrite Hla, Hlo; done).
    unfold export_heatmap.
    destruct (PingSample.getattr _) as [a|]; [|done].
    unfold get_session, Session.execute. simpl.
    rewrite (run_app_unlocated _ _ _ _ _ _ _ _ Hrow).
    destruct (Query.run _ _) as [rows|]; [|done]. simpl.
    by destruct (build_heatmap_points rows _).
Qed.

(** A sample without coordinates, posted on top of [example_store]. *)
Lemma C4_unlocated_stored_not_aggregated_witness :
  (PingSampleIn.latitude unlocated_sample = None
   ∨ PingSampleIn.longitude unlocated_sample = None)
  ∧ (∃ row, row_of unlocated_sample row
            ∧ row ∈ database
                (POST_ping_samples 0
                   (payload (Some "node-a") (Some "node-b") None None
                      (Some (Qc_of_Z (-60)))) example_store))
  ∧ ∀ row now params before after,
      row_of unlocated_sample row →
      outcome (GET_heatmap now params (before ++ row :: after))
      = outcome (GET_heatmap now params (before ++ after)).
Proof.
  pose proof (C4_unlocated_stored_not_aggregated unlocated_sample
                (or_introl eq_refl)) as (Hpost & _ & _ & Hget & _).
  split; [by left|]. split; [|exact Hget].
  by apply Hpost.
Defined.

(** ** Validation of ingested samples *)

Lemma Q2Qc_inject_Z n : Q2Qc (n # 1) = Qc_of_Z n.
Proof. apply Qc_is_canon. simpl. apply Qred_correct. Qed.

Lemma in_range_spec (lo hi : Z) o :
  PingSampleIn.in_range (Q2Qc (lo # 1)) (Q2Qc (hi # 1)) o
  ↔ ∀ x, o = Some x → (Qc_of_Z lo ≤ x ≤ Qc_of_Z hi)%Qc.
Proof.
  rewrite !Q2Qc_inject_Z. destruct o as [x|]; simpl; [|done].
  rewrite andb_True, !bool_decide_spec. split.
  - by intros ? ? [= <-].
  - intros H. by apply H.
Qed.

Lemma validate_Return p sample :
  PingSampleIn.validate p = Return sample →
  Payload.origin_node_id p = Some (PingSampleIn.origin_node_id sample)
  ∧ Payload.target_node_id p = Some (PingSampleIn.target_node_id sample)
  ∧ PingSampleIn.latitude sample = Payload.latitude p
  ∧ PingSampleIn.longitude sample = Payload.longitude p
  ∧ PingSampleIn.in_range (Q2Qc (-90)) (Q2Qc 90) (Payload.latitude p)
  ∧ PingSampleIn.in_range (Q2Qc (-180)) (Q2Qc 180) (Payload.longitude p).
Proof.
  unfold PingSampleIn.validate.
  destruct (Payload.origin_node_id p); [|done].
  destruct (Payload.target_node_id p); [|done].
  destruct (PingSampleIn.in_range _ _ (Payload.latitude p)); [|done].
  destruct (PingSampleIn.in_range _ _ (Payload.longitude p)); [|done].
  simpl. by intros [= <-].
Qed.

Lemma validate_violates p :
  violates p → ∃ field, PingSampleIn.validate p = Raise (ValidationError field).
Proof.
  unfold PingSampleIn.validate. intros Hv.
  destruct (Payload.origin_node_id p) eqn:Ho; [|by eexists].
  destruct (Payload.target_node_id p) eqn:Ht; [|by eexists].
  destruct (PingSampleIn.in_range _ _ (Payload.latitude p)) eqn:Hla;
    [|by eexists].
  destruct (PingSampleIn.in_range _ _ (Payload.longitude p)) eqn:Hlo;
    [|by eexists].
  exfalso. apply Is_true_true in Hla, Hlo.
  pose proof (proj1 (in_range_spec (-90) 90 _) Hla) as Hla'.
  pose proof (proj1 (in_range_spec (-180) 180 _) Hlo) as Hlo'.
  destruct Hv as [?|[?|[(x & Hx & Hn)|(y & Hy & Hn)]]]; try congruence.
  - by apply Hn, Hla'.
  - by apply Hn, Hlo'.
Qed.

Lemma validate_all_Raise body p field :
  p ∈ body → PingSampleIn.validate p = Raise (ValidationError field) →
  ∃ e, validate_all body = Raise e.
Proof.
  intros Hin Hp. induction Hin as [p l|p x l _ IH]; simpl.
  - rewrite Hp. by eexists.
  - destruct (IH Hp) as [e He]. rewrite He.
    destruct (PingSampleIn.validate x) eqn:Hx; try by eexists.
    clear -Hx. exfalso. unfold PingSampleIn.validate in Hx.
    by repeat case_match.
Qed.

(** C7 (as the code has it). A payload is accepted only with both node
    identifiers present, and the accepted sample carries them; when its
    latitude is present it lies in [-90, 90], when its longitude is present
    it lies in [-180, 180].  The identifiers are not required to be
    non-empty.  A payload that lacks an identifier or has a coordinate out
    of range is rejected with a validation error, and a request or file
    that contains it leaves the table as it was. *)
Theorem C7_accepted_samples_are_valid p :
  (∀ sample,
     PingSampleIn.validate p = Return sample →
     Payload.origin_node_id p = Some (PingSampleIn.origin_node_id sample)
     ∧ Payload.target_node_id p = Some (PingSampleIn.target_node_id sample)
     ∧ (∀ x, PingSampleIn.latitude sample = Some x →
          (Qc_of_Z (-90) ≤ x ≤ Qc_of_Z 90)%Qc)
     ∧ (∀ y, PingSampleIn.longitude sample = Some y →
          (Qc_of_Z (-180) ≤ y ≤ Qc_of_Z 180)%Qc))
  ∧ (violates p →
     (∃ field, PingSampleIn.validate p = Raise (ValidationError field))
     ∧ (∀ now db, database (POST_ping_samples now p db) = db)
     ∧ (∀ now before after db,
          database (POST_ping_samples_bulk now (before ++ p :: after) db) = db
          ∧ database (ingest_sample now (Some (before ++ p :: after)) db) = db)).
Proof.
  split.
  - intros sample (Ho & Ht & Hla & Hlo & Hla_ok & Hlo_ok)%validate_Return.
    rewrite Hla, Hlo. split_and!; try done.
    + by apply (in_range_spec (-90) 90).
    + by apply (in_range_spec (-180) 180).
  - intros [field Hp]%validate_violates. split_and!.
    + by exists field.
    + intros now db. unfold POST_ping_samples. by rewrite Hp.
    + intros now before after db.
      destruct (validate_all_Raise (before ++ p :: after) p field) as [e He];
        [apply elem_of_app; right; left|done|].
      unfold POST_ping_samples_bulk, ingest_sample. by rewrite He.
Qed.

(** C7, refuted as stated: a payload whose two identifiers are empty
    strings is accepted and stored. *)
Lemma C7_empty_identifiers_accepted :
  ∃ row,
    POST_ping_samples 0 (payload (Some "") (Some "") None None None) []
    = Transcript (Return (Some row)) [row] []
    ∧ PingSample.origin_node_id row = ""
    ∧ PingSample.target_node_id row = "".
Proof. by eexists. Qed.

(** ** Validation of the heatmap parameters on the two surfaces *)

Lemma GET_heatmap_unsupported now params db :
  default "rssi_dbm" (HeatmapParams.metric params) ∉ supported_metrics →
  GET_heatmap now params db = Transcript (Raise (ValidationError "metric")) db [].
Proof.
  intros Hm. unfold GET_heatmap, metric_matches.
  by rewrite bool_decide_eq_false_2.
Qed.

Lemma GET_heatmap_hours_out_of_bounds now params db h :
  HeatmapParams.hours params = Some h → h < 1 ∨ 168 < h →
  ∃ field,
    GET_heatmap now params db = Transcript (Raise (ValidationError field)) db [].
Proof.
  intros Hh Hout. unfold GET_heatmap. destruct (negb (metric_matches _)); [by eexists|].
  rewrite Hh. simpl.
  replace ((1 <=? h) && (h <=? 168)) with false; [by eexists|].
  symmetry. apply andb_false_iff. rewrite !Z.leb_gt. lia.
Qed.

Lemma export_heatmap_unknown settings now output metric hours hw ant db files :
  PingSample.getattr (default "rssi_dbm" metric) = None →
  export_heatmap settings now output metric hours hw ant db files
  = Export (Transcript (Raise (Exit 1)) db []) files.
Proof. intros H. unfold export_heatmap. by rewrite H. Qed.

(** C2, on the code. [GET /heatmap] rejects every metric outside the three
    supported names before any statement is sent, and [export-heatmap]
    rejects every name that is not an attribute of [PingSample].  But the
    export accepts other attributes: with [--metric latitude] it sends the
    aggregation query and writes the file, and with [--metric
    hardware_model] it sends a query that averages a text column. *)
Theorem C2_export_accepts_other_columns :
  (∀ now params db,
     default "rssi_dbm" (HeatmapParams.metric params) ∉ supported_metrics →
     GET_heatmap now params db
     = Transcript (Raise (ValidationError "metric")) db [])
  ∧ (∀ settings now output metric hours hw ant db files,
       PingSample.getattr (default "rssi_dbm" metric) = None →
       export_heatmap settings now output metric hours hw ant db files
       = Export (Transcript (Raise (Exit 1)) db []) files)
  ∧ ("latitude" ∉ supported_metrics)
  ∧ (let e := export_heatmap default_settings 0 "out.html" (Some "latitude")
                None None None example_store ∅ in
     outcome (session_of e) = Return "out.html"
     ∧ executed (session_of e)
       = [Query.mk (PingSample.AColumn Column.latitude) [Query.HasCoordinates]]
     ∧ is_Some (files_of e !! "out.html"))
  ∧ ("hardware_model" ∉ supported_metrics)
  ∧ (let e := export_heatmap default_settings 0 "out.html" (Some "hardware_model")
                None None None example_store ∅ in
     outcome (session_of e) = EngineDefined
     ∧ executed (session_of e)
       = [Query.mk (PingSample.AColumn Column.hardware_model) [Query.HasCoordinates]]).
Proof.
  split; [exact GET_heatmap_unsupported|].
  split; [exact export_heatmap_unknown|].
  split; [by apply (bool_decide_unpack _)|].
  split; [|split; [by apply (bool_decide_unpack _)|by vm_compute]].
  split_and!; [by vm_compute..|].
  vm_compute. by eexists.
Qed.

Lemma no_window_without_hours a now hw ant c :
  c ∈ Query.where_ (heatmap_query a now None hw ant) →
  ∀ cutoff, c ≠ Query.CreatedSince cutoff.
Proof.
  rewrite heatmap_query_where. simpl. intros Hc cutoff ->.
  apply elem_of_cons in Hc as [?|Hc]; [done|].
  destruct (truthy_str hw), (truthy_str ant); simpl in Hc;
    repeat (apply elem_of_cons in Hc as [?|Hc]; [done|]); inversion Hc.
Qed.

(** C3, on the code. [GET /heatmap] rejects every [hours] below 1 or above
    168 before any statement is sent, and on both surfaces a request
    without [hours] builds a query with no time-window condition.  But
    [export-heatmap] puts no bound on [--hours]: with [--hours 500] it
    applies a 500-hour window and writes the file, and with [--hours -1] it
    asks for samples created after a cutoff one hour in the future. *)
Theorem C3_export_accepts_any_hours :
  (∀ now params db h,
     HeatmapParams.hours params = Some h → h < 1 ∨ 168 < h →
     ∃ field,
       GET_heatmap now params db
       = Transcript (Raise (ValidationError field)) db [])
  ∧ (∀ a now hw ant c,
       c ∈ Query.where_ (heatmap_query a now None hw ant) →
       ∀ cutoff, c ≠ Query.CreatedSince cutoff)
  ∧ (let e := export_heatmap default_settings after_200_hours "out.html"
                (Some "rssi_dbm") (Some 500) None None old_store ∅ in
     outcome (session_of e) = Return "out.html"
     ∧ executed (session_of e)
       = [Query.mk (PingSample.AColumn Column.rssi_dbm)
            [Query.HasCoordinates;
             Query.CreatedSince (after_200_hours - 500 * 3600000000)]]
     ∧ is_Some (files_of e !! "out.html"))
  ∧ (let e := export_heatmap default_settings after_200_hours "out.html"
                (Some "rssi_dbm") (Some (-1)) None None old_store ∅ in
     outcome (session_of e) = Raise (Exit 1)
     ∧ executed (session_of e)
       = [Query.mk (PingSample.AColumn Column.rssi_dbm)
            [Query.HasCoordinates;
             Query.CreatedSince (after_200_hours + 3600000000)]]).
Proof.
  split; [exact GET_heatmap_hours_out_of_bounds|].
  split; [exact no_window_without_hours|].
  split; [|by vm_compute].
  split_and!; [by vm_compute..|].
  vm_compute. by eexists.
Qed.

(** ** Falsy filter values *)

Lemma no_hardware_filter_without_model a now hours ant c :
  c ∈ Query.where_ (heatmap_query a now hours None ant) →
  ∀ m, c ≠ Query.HardwareModelIs m.
Proof.
  rewrite heatmap_query_where. simpl. intros Hc m ->.
  apply elem_of_cons in Hc as [?|Hc]; [done|].
  destruct (truthy_int hours), (truthy_str ant); simpl in Hc;
    repeat (apply elem_of_cons in Hc as [?|Hc]; [done|]); inversion Hc.
Qed.

Lemma no_antenna_filter_without_model a now hours hw c :
  c ∈ Query.where_ (heatmap_query a now hours hw None) →
  ∀ m, c ≠ Query.AntennaModelIs m.
Proof.
  rewrite heatmap_query_where. simpl. intros Hc m ->.
  apply elem_of_cons in Hc as [?|Hc]; [done|].
  destruct (truthy_int hours), (truthy_str hw); simpl in Hc;
    repeat (apply elem_of_cons in Hc as [?|Hc]; [done|]); inversion Hc.
Qed.

(** C10 (as the code has it). On both surfaces an empty string for
    [hardware_model] or [antenna_model] is the same as leaving the filter
    out: the query is the one built without it, which has no condition on
    that column, and the request gives the same result.  [hours=0] is not
    treated so by [GET /heatmap]: its lower bound 1 rejects the request. *)
Theorem C10_empty_string_filters_are_omitted :
  (∀ a now hours hw ant,
     heatmap_query a now hours (Some "") ant = heatmap_query a now hours None ant
     ∧ heatmap_query a now hours hw (Some "") = heatmap_query a now hours hw None)
  ∧ (∀ a now hours hw ant c,
       (c ∈ Query.where_ (heatmap_query a now hours None ant) →
        ∀ m, c ≠ Query.HardwareModelIs m)
       ∧ (c ∈ Query.where_ (heatmap_query a now hours hw None) →
          ∀ m, c ≠ Query.AntennaModelIs m))
  ∧ (∀ now metric hours hw ant db,
       GET_heatmap now (HeatmapParams.mk metric hours (Some "") ant) db
       = GET_heatmap now (HeatmapParams.mk metric hours None ant) db
       ∧ GET_heatmap now (HeatmapParams.mk metric hours hw (Some "")) db
         = GET_heatmap now (HeatmapParams.mk metric hours hw None) db)
  ∧ (∀ settings now output metric hours hw ant db files,
       export_heatmap settings now output metric hours (Some "") ant db files
       = export_heatmap settings now output metric hours None ant db files
       ∧ export_heatmap settings now output metric hours hw (Some "") db files
         = export_heatmap settings now output metric hours hw None db files)
  ∧ (∀ now metric hw ant db,
       ∃ field,
         GET_heatmap now (HeatmapParams.mk metric (Some 0) hw ant) db
         = Transcript (Raise (ValidationError field)) db []).
Proof.
  split_and!.
  - intros. split; [done|]. unfold heatmap_query.
    by destruct (truthy_int hours), (truthy_str hw).
  - intros. split;
      [apply no_hardware_filter_without_model|apply no_antenna_filter_without_model].
  - intros. split; [done|]. unfold GET_heatmap, get_session, get_heatmap. simpl.
    destruct (negb _); [done|]. destruct (negb _); [done|].
    destruct (PingSample.getattr _); [|done]. unfold heatmap_query.
    by destruct (truthy_int hours), (truthy_str hw).
  - intros. split; [done|]. unfold export_heatmap, heatmap_query.
    destruct (PingSample.getattr _); [|done].
    by destruct (truthy_int hours), (truthy_str hw).
  - intros. apply (GET_heatmap_hours_out_of_bounds _ _ _ 0); [done|lia].
Qed.

(** C10, refuted as stated: [GET /heatmap] with [hours=0] is rejected,
    while the same request without [hours] is answered. *)
Lemma C10_zero_hours_rejected_by_GET :
  outcome (GET_heatmap 0 (HeatmapParams.mk (Some "rssi_dbm") (Some 0) None None)
             example_store)
  = Raise (ValidationError "hours")
  ∧ outcome (GET_heatmap 0 (HeatmapParams.mk (Some "rssi_dbm") None None None)
               example_store)
    = Return example_response.
Proof. by split. Qed.

(** What [export-heatmap] does with [--hours 0]: the truthiness test skips
    the time window, as when [--hours] is not given. *)
Lemma export_heatmap_zero_hours settings now output metric hw ant db files :
  export_heatmap settings now output metric (Some 0) hw ant db files
  = export_heatmap settings now output metric None hw ant db files.
Proof. reflexivity. Qed.

(** * Further properties of the code *)

(** ** The recent samples (api.py, [recent_ping_samples]) *)

#[global] Instance not_older_trans : Transitive not_older.
Proof. unfold not_older. intros a b c Hab Hbc. lia. Qed.

#[global] Instance not_older_total : Total not_older.
Proof. unfold not_older. intros a b. lia. Qed.

Lemma order_by_created_at_desc_sorted rows :
  StronglySorted not_older (order_by_created_at_desc rows).
Proof. apply StronglySorted_merge_sort; apply _. Qed.

Lemma order_by_created_at_desc_Permutation rows :
  order_by_created_at_desc rows ≡ₚ rows.
Proof. apply merge_sort_Permutation. Qed.

(** X1. [GET /ping-samples/recent] with a limit outside [1, 500] (25 when
    absent) is refused before the table is read.  Otherwise it returns
    [min limit n] of the [n] stored samples, newest first, and they are the
    most recent ones: no stored sample left out is newer than a returned
    one.  The table is left as it was. *)
Theorem recent_ping_samples_are_the_newest now limit db :
  let n := default 25 limit in
  if decide (1 ≤ n ≤ 500)
  then
    ∃ records rest,
      GET_ping_samples_recent now limit db = Transcript (Return records) db []
      ∧ length records = Nat.min (Z.to_nat n) (length db)
      ∧ StronglySorted not_older records
      ∧ db ≡ₚ records ++ rest
      ∧ ∀ r r', r ∈ records → r' ∈ rest →
          PingSample.created_at r' ≤ PingSample.created_at r
  else
    GET_ping_samples_recent now limit db
    = Transcript (Raise (ValidationError "limit")) db [].
Proof.
  intros n. unfold GET_ping_samples_recent. fold n. unfold limit_in_bounds.
  destruct (decide (1 ≤ n ≤ 500)) as [Hn|Hn].
  - replace ((1 <=? n) && (n <=? 500)) with true
      by (symmetry; apply andb_true_iff; rewrite !Z.leb_le; lia).
    simpl.
    pose proof (order_by_created_at_desc_sorted db) as Hs.
    rewrite <-(take_drop (Z.to_nat n) (order_by_created_at_desc db)) in Hs.
    apply StronglySorted_app in Hs as (Hs12 & Hs1 & _).
    exists (take (Z.to_nat n) (order_by_created_at_desc db)),
      (drop (Z.to_nat n) (order_by_created_at_desc db)).
    split_and!.
    + reflexivity.
    + by rewrite length_take,
        (Permutation_length (order_by_created_at_desc_Permutation db)).
    + done.
    + by rewrite take_drop, order_by_created_at_desc_Permutation.
    + intros r r' Hr Hr'. by apply Hs12.
  - replace ((1 <=? n) && (n <=? 500)) with false; [done|].
    symmetry. apply andb_false_iff. rewrite !Z.leb_gt. lia.
Qed.

(** ** Ingestion: what the three surfaces write *)

Lemma persistent_flush now s :
  Session.persistent (Session.flush now s)
  = Session.persistent s ++ inserted now (Session.table s) (Session.pending s).
Proof. unfold Session.flush. by rewrite fold_insert. Qed.

Lemma statements_flush now s :
  Session.statements (Session.flush now s) = Session.statements s.
Proof. unfold Session.flush. by rewrite fold_insert. Qed.

(** Whatever it is given, an ingestion surface leaves the old rows in place
    and adds the rows of the objects it flushes after them. *)
Lemma POST_ping_samples_appends now body db :
  ∃ os, database (POST_ping_samples now body db) = db ++ inserted now db os.
Proof.
  unfold POST_ping_samples. destruct (PingSampleIn.validate body) as [sample|e|].
  - by exists [record_of now sample].
  - exists []. simpl. by rewrite app_nil_r.
  - exists []. simpl. by rewrite app_nil_r.
Qed.

Lemma POST_ping_samples_bulk_appends now body db :
  ∃ os, database (POST_ping_samples_bulk now body db) = db ++ inserted now db os.
Proof.
  destruct (validate_all body) as [samples|e|] eqn:Hv.
  - destruct samples as [|s samples].
    + exists []. unfold POST_ping_samples_bulk. rewrite Hv. simpl.
      by rewrite app_nil_r.
    + exists (record_of now <$> s :: samples).
      by apply POST_ping_samples_bulk_database.
  - exists []. unfold POST_ping_samples_bulk. rewrite Hv. simpl.
    by rewrite app_nil_r.
  - exists []. unfold POST_ping_samples_bulk. rewrite Hv. simpl.
    by rewrite app_nil_r.
Qed.

Lemma ingest_sample_appends now file db :
  ∃ os, database (ingest_sample now file db) = db ++ inserted now db os.
Proof.
  destruct file as [data|]; [|exists []; simpl; by rewrite app_nil_r].
  destruct (validate_all data) as [samples|e|] eqn:Hv.
  - eexists. by apply ingest_sample_database.
  - exists []. unfold ingest_sample. rewrite Hv. simpl. by rewrite app_nil_r.
  - exists []. unfold ingest_sample. rewrite Hv. simpl. by rewrite app_nil_r.
Qed.

(** X2. Ingestion only appends: whatever the request body or the file
    holds, valid or not, the three ingestion surfaces leave every stored
    row where it was and unchanged; new rows come after them. *)
Theorem ingestion_is_append_only now db :
  (∀ body, db `prefix_of` database (POST_ping_samples now body db))
  ∧ (∀ body, db `prefix_of` database (POST_ping_samples_bulk now body db))
  ∧ (∀ file, db `prefix_of` database (ingest_sample now file db)).
Proof.
  split_and!.
  - intros body. destruct (POST_ping_samples_appends now body db) as (os & ->).
    by eexists.
  - intros body.
    destruct (POST_ping_samples_bulk_appends now body db) as (os & ->).
    by eexists.
  - intros file. destruct (ingest_sample_appends now file db) as (os & ->).
    by eexists.
Qed.

(** ** Ingestion: what the surfaces answer *)

Lemma inserted_Forall2 now rows (f : PingSampleIn.t → PingSample.transient)
    (P : PingSample.t → PingSampleIn.t → Prop) samples :
  (∀ s key, P (f s now key) s) →
  Forall2 P (inserted now rows (f <$> samples)) samples.
Proof.
  intros Hf. revert rows. induction samples as [|s l IH]; intros rows; csimpl.
  - constructor.
  - constructor; [apply Hf|apply IH].
Qed.

(** X4. [POST /ping-samples/bulk] with a validated, non-empty batch answers
    with the rows it stored, which it adds after the rows already there: one
    row per sample, in the order of the batch, each holding the fields of
    its sample column by column. *)
Theorem bulk_answers_with_the_stored_rows now body samples db :
  validate_all body = Return samples →
  samples ≠ [] →
  ∃ rows,
    POST_ping_samples_bulk now body db = Transcript (Return rows) (db ++ rows) []
    ∧ Forall2 (fun row sample => row_of sample row) rows samples.
Proof.
  intros Hv Hne. exists (inserted now db (record_of now <$> samples)). split.
  - unfold POST_ping_samples_bulk. rewrite Hv.
    unfold get_session, create_ping_samples.
    destruct samples as [|x l]; [done|].
    rewrite fold_add. simpl. unfold Session.commit.
    rewrite persistent_flush, statements_flush, table_flush, pending_flush,
      table_flush. simpl.
    by rewrite app_nil_r.
  - apply inserted_Forall2. intros s key. apply row_of_new.
Qed.

Lemma bulk_answers_with_the_stored_rows_witness :
  ∃ rows,
    POST_ping_samples_bulk 7 example_batch example_store
    = Transcript (Return rows) (example_store ++ rows) []
    ∧ Forall2 (fun row sample => row_of sample row) rows example_samples.
Proof.
  apply (bulk_answers_with_the_stored_rows 7 example_batch example_samples
           example_store); [by vm_compute|done].
Defined.

Lemma inserted_ext now rows (f g : PingSampleIn.t → PingSample.transient) samples :
  (∀ s key, f s now key = g s now key) →
  inserted now rows (f <$> samples) = inserted now rows (g <$> samples).
Proof.
  intros Hfg. revert rows. induction samples as [|s l IH]; intros rows; [done|].
  csimpl. by rewrite Hfg, IH.
Qed.

Lemma validate_defined p : PingSampleIn.validate p ≠ EngineDefined.
Proof. unfold PingSampleIn.validate. by repeat case_match. Qed.

Lemma validate_all_defined body : validate_all body ≠ EngineDefined.
Proof.
  induction body as [|p body IH]; simpl; [done|].
  pose proof (validate_defined p).
  destruct (PingSampleIn.validate p); [|done..].
  by destruct (validate_all body).
Qed.

(** X5. [ingest-sample] exits with code 1 when the file does not exist and
    fails, writing nothing, when one element does not validate.  Otherwise
    it stores one row per element and reports their number; for a non-empty
    array these are the rows [POST /ping-samples/bulk] stores for the same
    body, while an empty array, which the bulk endpoint refuses, is ingested
    as zero samples. *)
Theorem ingest_sample_stores_what_bulk_stores now db :
  ingest_sample now None db = Transcript (Raise (Exit 1)) db []
  ∧ ingest_sample now (Some []) db = Transcript (Return 0) db []
  ∧ ∀ data,
      match validate_all data with
      | Return samples =>
          outcome (ingest_sample now (Some data) db)
          = Return (Z.of_nat (length samples))
          ∧ length (database (ingest_sample now (Some data) db))
            = (length db + length samples)%nat
          ∧ (samples ≠ [] →
             database (ingest_sample now (Some data) db)
             = database (POST_ping_samples_bulk now data db))
      | Raise e => ingest_sample now (Some data) db = Transcript (Raise e) db []
      | EngineDefined => False
      end.
Proof.
  split; [done|]. split; [done|]. intros data.
  destruct (validate_all data) as [samples|e|] eqn:Hv.
  - split_and!.
    + unfold ingest_sample. by rewrite Hv.
    + rewrite (ingest_sample_database _ _ _ _ Hv).
      by rewrite length_app, length_inserted, length_fmap.
    + intros Hne. rewrite (ingest_sample_database _ _ _ _ Hv),
        (POST_ping_samples_bulk_database _ _ _ _ Hv Hne).
      f_equal. apply inserted_ext. intros s key. unfold record_of. simpl.
      by destruct (PingSampleIn.timestamp s).
  - unfold ingest_sample. by rewrite Hv.
  - by apply validate_all_defined in Hv.
Qed.

(** ** Posting a sample and reading it back *)

Lemma head_of_newest row db :
  (∀ r, r ∈ db → PingSample.created_at r < PingSample.created_at row) →
  ∃ rest, order_by_created_at_desc (db ++ [row]) = row :: rest.
Proof.
  intros Hnew.
  pose proof (order_by_created_at_desc_sorted (db ++ [row])) as Hs.
  pose proof (order_by_created_at_desc_Permutation (db ++ [row])) as Hp.
  destruct (order_by_created_at_desc (db ++ [row])) as [|h rest].
  - apply Permutation_nil_l in Hp. by destruct db.
  - exists rest. f_equal.
    assert (Hh : h ∈ db ++ [row]) by (rewrite <-Hp; left).
    assert (Hrow : row ∈ h :: rest) by (rewrite Hp, elem_of_app; right; left).
    apply elem_of_app in Hh as [Hh|Hh]; [|by apply list_elem_of_singleton in Hh].
    apply elem_of_cons in Hrow as [->|Hrow]; [done|].
    apply StronglySorted_cons in Hs as [Hall _].
    pose proof (proj1 (Forall_forall _ _) Hall row Hrow) as Hle. apply Hnew in Hh.
    unfold not_older in Hle. lia.
Qed.

(** X6. A posted sample that validates is answered with the row stored for
    it: the request adds that one row after the rows already there, and the
    row holds the sample's fields column by column.  When the row's
    [created_at] is later than every stored sample's, it is the first one
    [GET /ping-samples/recent] returns afterwards, for any valid limit. *)
Theorem posted_sample_is_the_most_recent now later body sample db limit :
  PingSampleIn.validate body = Return sample →
  1 ≤ default 25 limit ≤ 500 →
  ∃ row,
    POST_ping_samples now body db = Transcript (Return (Some row)) (db ++ [row]) []
    ∧ row_of sample row
    ∧ ((∀ r, r ∈ db → PingSample.created_at r < PingSample.created_at row) →
       ∃ rest,
         outcome (GET_ping_samples_recent later limit (db ++ [row]))
         = Return (row :: rest)).
Proof.
  intros Hv Hlimit.
  exists (record_of now sample now (Session.next_id db)). split_and!.
  - unfold POST_ping_samples. by rewrite Hv.
  - apply row_of_new.
  - intros Hnew. destruct (head_of_newest _ db Hnew) as [rest Hrest].
    exists (take (Z.to_nat (default 25 limit) - 1) rest).
    unfold GET_ping_samples_recent, limit_in_bounds.
    replace ((1 <=? default 25 limit) && (default 25 limit <=? 500)) with true
      by (symmetry; apply andb_true_iff; rewrite !Z.leb_le; lia).
    simpl. rewrite Hrest.
    destruct (Z.to_nat (default 25 limit)) as [|n] eqn:Hn; [lia|].
    simpl. by rewrite Nat.sub_0_r.
Qed.

(** A sample posted at time 9 on top of [example_store], whose samples were
    taken at time 0, and read back with [limit=2]. *)
Lemma posted_sample_is_the_most_recent_witness :
  ∃ row rest,
    POST_ping_samples 9
      (payload (Some "node-a") (Some "node-b") None None None) example_store
    = Transcript (Return (Some row)) (example_store ++ [row]) []
    ∧ row_of (sample_in "node-a" "node-b" None None None) row
    ∧ outcome (GET_ping_samples_recent 10 (Some 2) (example_store ++ [row]))
      = Return (row :: rest).
Proof.
  destruct (posted_sample_is_the_most_recent 9 10
              (payload (Some "node-a") (Some "node-b") None None None)
              (sample_in "node-a" "node-b" None None None) example_store (Some 2))
    as (row & Hpost & Hrow & Hrecent); [done|done|].
  destruct Hrecent as [rest Hrest].
  - injection Hpost as <- _. intros r Hr. unfold example_store in Hr.
    rewrite !elem_of_cons, elem_of_nil in Hr.
    by destruct Hr as [->|[->|[->|[->|[]]]]].
  - by exists row, rest.
Defined.

(** ** [GET /heatmap] only reads *)

(** X7. [GET /heatmap] only reads: whatever the parameters, the request
    leaves the table as it was.  A request that fails sends no statement;
    any other sends the aggregation query of its parameters, once. *)
Theorem GET_heatmap_only_reads now params db :
  database (GET_heatmap now params db) = db
  ∧ match outcome (GET_heatmap now params db) with
    | Raise _ => executed (GET_heatmap now params db) = []
    | _ =>
        ∃ a,
          PingSample.getattr (default "rssi_dbm" (HeatmapParams.metric params))
          = Some a
          ∧ executed (GET_heatmap now params db)
            = [heatmap_query a now (HeatmapParams.hours params)
                 (HeatmapParams.hardware_model params)
                 (HeatmapParams.antenna_model params)]
    end.
Proof.
  unfold GET_heatmap.
  destruct (negb _); [done|]. destruct (negb _); [done|].
  unfold get_session, get_heatmap.
  destruct (PingSample.getattr _) as [a|]; [|done].
  unfold Session.execute. simpl.
  destruct (Query.run _ _); simpl; (split; [done|by exists a]).
Qed.

(** ** The other fields of a point *)

Lemma fold_max_Z l x :
  let m := fold_left (fun m y => if m <? y then y else m) l x in
  (m = x ∨ m ∈ l) ∧ x ≤ m ∧ ∀ y, y ∈ l → y ≤ m.
Proof.
  revert x. induction l as [|a l IH]; intros x; simpl.
  - split; [by left|]. split; [lia|]. intros y Hy. inversion Hy.
  - pose proof (IH (if x <? a then a else x)) as (Hin & Hle & Hall).
    destruct (Z.ltb_spec x a) as [Hlt|Hge]; split_and!.
    + destruct Hin as [->|Hin]; [right; left|right; by right].
    + lia.
    + intros y Hy. apply elem_of_cons in Hy as [->|Hy]; [done|by apply Hall].
    + destruct Hin as [->|Hin]; [by left|right; by right].
    + done.
    + intros y Hy. apply elem_of_cons in Hy as [->|Hy]; [lia|by apply Hall].
Qed.

Lemma fold_select_elem_of {A} (ltb : A → A → bool) l x :
  fold_left (fun m y => if ltb m y then y else m) l x ∈ x :: l.
Proof.
  revert x. induction l as [|a l IH]; intros x; simpl; [left|].
  pose proof (IH (if ltb x a then a else x)) as Hin.
  apply elem_of_cons in Hin as [->|Hin]; [|right; by right].
  destruct (ltb x a); [right; left|left].
Qed.

Lemma sql_max_latest (g : list PingSample.t) :
  g ≠ [] →
  ∃ t, sql_max Z.ltb ((fun r => Some (PingSample.created_at r)) <$> g) = Some t
       ∧ (∃ r, r ∈ g ∧ PingSample.created_at r = t)
       ∧ ∀ r, r ∈ g → PingSample.created_at r ≤ t.
Proof.
  intros Hg. unfold sql_max. rewrite non_null_Some.
  destruct g as [|r0 g]; [done|]. csimpl. eexists. split; [done|].
  pose proof (fold_max_Z (PingSample.created_at <$> g) (PingSample.created_at r0))
    as (Hin & Hle & Hall). split.
  - destruct Hin as [->|Hin]; [exists r0; split; [left|done]|].
    apply list_elem_of_fmap in Hin as (r & -> & Hr). exists r. split; [by right|done].
  - intros r Hr. apply elem_of_cons in Hr as [->|Hr]; [done|].
    apply Hall. by apply list_elem_of_fmap_2.
Qed.

Lemma elem_of_non_null {A} (l : list (option A)) x : x ∈ non_null l ↔ Some x ∈ l.
Proof.
  unfold non_null. rewrite list_elem_of_omap. split.
  - intros (o & Ho & Heq). simpl in Heq. by subst.
  - intros Hx. by exists (Some x).
Qed.

Lemma sql_max_label (g : list PingSample.t) :
  match sql_max String.ltb (PingSample.hardware_model <$> g) with
  | Some m => ∃ r, r ∈ g ∧ PingSample.hardware_model r = Some m
  | None => ∀ r, r ∈ g → PingSample.hardware_model r = None
  end.
Proof.
  unfold sql_max.
  destruct (non_null (PingSample.hardware_model <$> g)) as [|v vs] eqn:Hnn.
  - intros r Hr. destruct (PingSample.hardware_model r) as [m|] eqn:Hm; [|done].
    assert (Hin : m ∈ non_null (PingSample.hardware_model <$> g)).
    { apply elem_of_non_null. rewrite <-Hm. by apply list_elem_of_fmap_2. }
    rewrite Hnn in Hin. inversion Hin.
  - pose proof (fold_select_elem_of String.ltb vs v) as Hin.
    rewrite <-Hnn in Hin. apply elem_of_non_null, list_elem_of_fmap in Hin
      as (r & Hm & Hr). by exists r.
Qed.

(** Each returned point is what the loop makes of the rows that contribute
    at its place. *)
Lemma point_of_contributors a value now hours hw ant db rows metric p :
  Query.value_of a = Some value →
  Query.run (heatmap_query a now hours hw ant) db = Some rows →
  p ∈ build_heatmap_points rows metric →
  let g := contributors now hours hw ant
             (HeatmapPoint.latitude p) (HeatmapPoint.longitude p) db in
  g ≠ []
  ∧ heatmap_point
      (Query.aggregate value
         (Some (HeatmapPoint.latitude p), Some (HeatmapPoint.longitude p)) g)
    = Some p.
Proof.
  intros Hv Hrun Hp g.
  pose proof (point_has_contributor _ _ _ _ _ _ _ _ _ _ Hv Hrun Hp) as Hg.
  split; [done|].
  assert (Hin : p ∈ points_at (HeatmapPoint.latitude p) (HeatmapPoint.longitude p)
                  (build_heatmap_points rows metric)).
  { unfold points_at. by apply list_elem_of_filter. }
  rewrite (heatmap_points_at _ _ _ _ _ _ _ _ _ _ _ Hv Hrun) in Hin.
  subst g.
  destruct (contributors now hours hw ant (HeatmapPoint.latitude p)
              (HeatmapPoint.longitude p) db) as [|r g]; [done|].
  destruct (heatmap_point _) as [p'|]; [|inversion Hin].
  apply list_elem_of_singleton in Hin. by subst.
Qed.

(** X8. Beside its intensity, every point of an answer of [GET /heatmap]
    summarises the samples that contribute at its place: [latest_seen] is
    the timestamp of the newest of them, [antenna_gain_dbi] and
    [tx_power_dbm] are the means of their non-null antenna gains and
    transmit powers (null when there is none), and [hardware_model] is the
    hardware model of one of them (null only when none has one). *)
Theorem point_summarises_its_contributors now params db resp p :
  outcome (GET_heatmap now params db) = Return resp →
  p ∈ HeatmapResponse.points resp →
  let g := contributors now (HeatmapParams.hours params)
             (HeatmapParams.hardware_model params)
             (HeatmapParams.antenna_model params)
             (HeatmapPoint.latitude p) (HeatmapPoint.longitude p) db in
  (∃ t, HeatmapPoint.latest_seen p = Some t
        ∧ (∃ r, r ∈ g ∧ PingSample.created_at r = t)
        ∧ ∀ r, r ∈ g → PingSample.created_at r ≤ t)
  ∧ HeatmapPoint.antenna_gain_dbi p
    = match non_null (PingSample.antenna_gain_dbi <$> g) with
      | [] => None
      | vs => Some (mean vs)
      end
  ∧ HeatmapPoint.tx_power_dbm p
    = match non_null (PingSample.tx_power_dbm <$> g) with
      | [] => None
      | vs => Some (mean vs)
      end
  ∧ match HeatmapPoint.hardware_model p with
    | Some m => ∃ r, r ∈ g ∧ PingSample.hardware_model r = Some m
    | None => ∀ r, r ∈ g → PingSample.hardware_model r = None
    end.
Proof.
  intros Hresp Hp g. pose proof (GET_heatmap_Return _ _ _ _ Hresp) as [Hm Hh].
  destruct (GET_heatmap_valid now params db Hm Hh)
    as (a & value & rows & Ha & Hv & Hrows & Heq).
  rewrite Heq in Hresp. injection Hresp as <-. rewrite points_envelope in Hp.
  destruct (point_of_contributors _ _ _ _ _ _ _ _ _ _ Hv Hrows Hp) as [Hg Hpoint].
  fold g in Hg, Hpoint. rewrite heatmap_point_aggregate in Hpoint by done.
  destruct (non_null (value <$> g)) as [|v vs]; [done|].
  injection Hpoint as Hpoint. rewrite <-Hpoint. simpl. split_and!.
  - by apply sql_max_latest.
  - done.
  - done.
  - apply sql_max_label.
Qed.

(** The first point of the worked example. *)
Lemma point_summarises_its_contributors_witness :
  ∃ p t,
    HeatmapResponse.points example_response !! 0%nat = Some p
    ∧ HeatmapPoint.latest_seen p = Some t
    ∧ ∀ r, r ∈ contributors 0 None None None (HeatmapPoint.latitude p)
                 (HeatmapPoint.longitude p) example_store →
        PingSample.created_at r ≤ t.
Proof.
  eexists. 
  assert (Hp : HeatmapResponse.points example_response !! 0%nat = Some _)
    by reflexivity.
  destruct (point_summarises_its_contributors 0 rssi_unfiltered example_store
              example_response _ eq_refl (list_elem_of_lookup_2 _ _ _ Hp))
    as ((t & Ht & _ & Hall) & _).
  by exists t.
Defined.

(** ** From rows to points (heatmap.py, [build_heatmap_points]) *)

(** X9. [build_heatmap_points] makes one point of every row whose latitude,
    longitude and metric value are all present, in the order of the rows,
    and skips the others; the metric name plays no part.  A point never
    reports zero samples: a missing or zero count is shown as 1. *)
Theorem build_heatmap_points_keeps_the_complete_rows records metric :
  Forall2 point_from (build_heatmap_points records metric) (filter complete records)
  ∧ ∀ p, p ∈ build_heatmap_points records metric → HeatmapPoint.samples p ≠ 0.
Proof.
  assert (H2 : Forall2 point_from (build_heatmap_points records metric)
                 (filter complete records)).
  { unfold build_heatmap_points. induction records as [|r l IH]; [constructor|].
    csimpl. unfold heatmap_point at 1.
    destruct (Row.latitude r) as [la|] eqn:Hla;
      [|rewrite filter_cons_False; [done|by intros ([? ?] & _); simplify_eq]].
    destruct (Row.longitude r) as [lo|] eqn:Hlo;
      [|rewrite filter_cons_False; [done|by intros (_ & [? ?] & _); simplify_eq]].
    destruct (Row.metric_value r) as [v|] eqn:Hv;
      [|rewrite filter_cons_False; [done|by intros (_ & _ & [? ?]); simplify_eq]].
    rewrite filter_cons_True by (unfold complete; rewrite Hla, Hlo, Hv; eauto).
    constructor; [|done]. unfold point_from. simpl.
    rewrite Hla, Hlo, Hv. split_and!; try done.
    unfold samples_of, truthy_int. destruct (Row.sample_count r) as [n|]; [|done].
    simpl. destruct (Z.eqb_spec n 0), (decide (n = 0)); done. }
  split; [done|]. intros p Hp.
  apply list_elem_of_lookup in Hp as [i Hi].
  destruct (Forall2_lookup_l _ _ _ _ _ H2 Hi) as (r & _ & Hfrom).
  destruct Hfrom as (_ & _ & _ & -> & _).
  destruct (Row.sample_count r) as [n|]; [|done]. by destruct (decide (n = 0)).
Qed.

(** ** The exported map shows the points of the API *)

(** X11. With the default map tiles ([MAP_TILE_URL] unset, empty or
    "OpenStreetMap") and parameters [GET /heatmap] accepts, [export-heatmap]
    renders exactly the points the API returns: when the answer has points,
    the export succeeds and the document at the output path has one heat
    entry (latitude, longitude, weight = intensity) and one marker (place,
    intensity, sample count) per point, in the order of the answer; when it
    has none, the export exits with code 1 and writes nothing. *)
Theorem export_renders_the_points_of_the_API settings now output params db files :
  tiles_or_default (Settings.map_tile_url settings) = "OpenStreetMap" →
  default "rssi_dbm" (HeatmapParams.metric params) ∈ supported_metrics →
  hours_in_bounds (HeatmapParams.hours params) →
  ∃ resp,
    outcome (GET_heatmap now params db) = Return resp
    ∧ let e := export_heatmap settings now output (HeatmapParams.metric params)
                 (HeatmapParams.hours params) (HeatmapParams.hardware_model params)
                 (HeatmapParams.antenna_model params) db files in
      match HeatmapResponse.points resp with
      | [] => outcome (session_of e) = Raise (Exit 1) ∧ files_of e = files
      | points =>
          outcome (session_of e) = Return output
          ∧ ∃ doc,
              files_of e !! output = Some doc
              ∧ Folium.heat_data doc
                = (fun p => (HeatmapPoint.latitude p, HeatmapPoint.longitude p,
                             HeatmapPoint.intensity p)) <$> points
              ∧ marker_says <$> Folium.markers doc
                = (fun p => (HeatmapPoint.latitude p, HeatmapPoint.longitude p,
                             HeatmapPoint.intensity p, HeatmapPoint.samples p))
                  <$> points
      end.
Proof.
  intros _ Hm Hh.
  destruct (GET_heatmap_valid now params db Hm Hh)
    as (a & value & rows & Ha & Hv & Hrows & Heq).
  destruct (export_heatmap_valid settings now output (HeatmapParams.metric params)
              (HeatmapParams.hours params) (HeatmapParams.hardware_model params)
              (HeatmapParams.antenna_model params) db files Hm)
    as (a' & value' & rows' & Ha' & Hv' & Hrows' & Heq').
  rewrite Ha in Ha'. injection Ha' as <-. rewrite Hrows in Hrows'.
  injection Hrows' as <-.
  eexists. split; [by rewrite Heq|]. rewrite points_envelope, Heq'.
  destruct (build_heatmap_points rows _) as [|p ps]; [done|].
  simpl. split; [done|]. eexists. split; [apply lookup_insert_eq|].
  simpl. split; [done|]. f_equal. by rewrite <-list_fmap_compose.
Qed.

Lemma export_renders_the_points_of_the_API_witness :
  ∃ doc,
    files_of (export_heatmap default_settings 0 "out.html" (Some "rssi_dbm")
                None None None example_store ∅) !! "out.html" = Some doc
    ∧ Folium.heat_data doc
      = (fun p => (HeatmapPoint.latitude p, HeatmapPoint.longitude p,
                   HeatmapPoint.intensity p))
        <$> HeatmapResponse.points example_response.
Proof.
  destruct (export_renders_the_points_of_the_API default_settings 0 "out.html"
              rssi_unfiltered example_store ∅)
    as (resp & Hresp & Hexport); [done|apply list_elem_of_here|done|].
  injection Hresp as <-.
  destruct Hexport as (_ & doc & Hdoc & Hheat & _).
  by exists doc.
Defined.

(** ** Validation accepts exactly the valid payloads *)

Lemma in_range_false (lo hi : Z) o :
  PingSampleIn.in_range (Q2Qc (lo # 1)) (Q2Qc (hi # 1)) o = false →
  ∃ x, o = Some x ∧ ¬ (Qc_of_Z lo ≤ x ≤ Qc_of_Z hi)%Qc.
Proof.
  intros Hf. destruct o as [x|]; [|done]. exists x. split; [done|].
  intros Hx.
  assert (Ht : PingSampleIn.in_range (Q2Qc (lo # 1)) (Q2Qc (hi # 1)) (Some x)).
  { apply in_range_spec. by intros ? [= <-]. }
  rewrite Hf in Ht. done.
Qed.

(** X12. [PingSampleIn] accepts a payload exactly when both identifiers are
    present and each coordinate that is present lies in its range; nothing
    else (an empty identifier, any value of the other fields) makes it
    refuse.  The accepted sample carries every field of the payload
    unchanged. *)
Theorem validate_accepts_exactly_the_valid p :
  ((∃ sample, PingSampleIn.validate p = Return sample) ↔ ¬ violates p)
  ∧ ∀ sample, PingSampleIn.validate p = Return sample → payload_of sample = p.
Proof.
  split; [split|].
  - intros [sample Hs] [field Hf]%validate_violates. congruence.
  - intros Hok. unfold PingSampleIn.validate.
    destruct (Payload.origin_node_id p) eqn:Ho;
      [|destruct Hok; by left].
    destruct (Payload.target_node_id p) eqn:Ht;
      [|destruct Hok; right; by left].
    destruct (PingSampleIn.in_range _ _ (Payload.latitude p)) eqn:Hla;
      [|destruct Hok; right; right; left; by apply (in_range_false (-90) 90)].
    destruct (PingSampleIn.in_range _ _ (Payload.longitude p)) eqn:Hlo;
      [|destruct Hok; right; right; right; by apply (in_range_false (-180) 180)].
    by eexists.
  - intros sample. unfold PingSampleIn.validate.
    destruct (Payload.origin_node_id p) eqn:Ho; [|done].
    destruct (Payload.target_node_id p) eqn:Ht; [|done].
    destruct (PingSampleIn.in_range _ _ (Payload.latitude p)); [|done].
    destruct (PingSampleIn.in_range _ _ (Payload.longitude p)); [|done].
    simpl. intros [= <-]. destruct p. simpl in *. by subst.
Qed.

(** ** The filters show in the points *)

(** X14. The filters of [GET /heatmap] show in every point it returns: with
    [hours = h] the point's [latest_seen] is not older than [h] hours before
    the request, and with a non-empty [hardware_model = m] the point's
    hardware model is [m]. *)
Theorem filters_show_in_the_points now params db resp p :
  outcome (GET_heatmap now params db) = Return resp →
  p ∈ HeatmapResponse.points resp →
  (∀ h, HeatmapParams.hours params = Some h →
     ∃ t, HeatmapPoint.latest_seen p = Some t ∧ now - h * 3600000000 ≤ t)
  ∧ (∀ m, HeatmapParams.hardware_model params = Some m → m ≠ "" →
       HeatmapPoint.hardware_model p = Some m).
Proof.
  intros Hresp Hp. pose proof (GET_heatmap_Return _ _ _ _ Hresp) as [Hm Hh].
  destruct (GET_heatmap_valid now params db Hm Hh)
    as (a & value & rows & Ha & Hv & Hrows & Heq).
  rewrite Heq in Hresp. injection Hresp as <-. rewrite points_envelope in Hp.
  destruct (point_of_contributors _ _ _ _ _ _ _ _ _ _ Hv Hrows Hp) as [Hg Hpoint].
  set (g := contributors now (HeatmapParams.hours params)
              (HeatmapParams.hardware_model params)
              (HeatmapParams.antenna_model params)
              (HeatmapPoint.latitude p) (HeatmapPoint.longitude p) db) in *.
  assert (Hpass : ∀ r, r ∈ g →
            passes now (HeatmapParams.hours params)
              (HeatmapParams.hardware_model params)
              (HeatmapParams.antenna_model params) r).
  { intros r Hr. by apply list_elem_of_filter in Hr as ((_ & _ & ?) & _). }
  rewrite heatmap_point_aggregate in Hpoint by done.
  destruct (non_null (value <$> g)) as [|v vs]; [done|].
  injection Hpoint as Hpoint. rewrite <-Hpoint. simpl. split.
  - intros h Hhours.
    destruct (sql_max_latest g Hg) as (t & -> & (r & Hr & <-) & _).
    eexists. split; [done|].
    destruct (Hpass r Hr) as (Hwindow & _). rewrite Hhours in Hwindow, Hh.
    simpl in Hwindow, Hh. apply Hwindow.
    destruct (Z.eqb_spec h 0) as [->|]; [done|done].
  - intros m Hhw Hne. pose proof (sql_max_label g) as Hlabel.
    assert (Hall : ∀ r, r ∈ g → PingSample.hardware_model r = Some m).
    { intros r Hr. destruct (Hpass r Hr) as (_ & Hmodel & _).
      rewrite Hhw in Hmodel. apply Hmodel. simpl.
      destruct (String.eqb_spec m ""); done. }
    destruct (sql_max String.ltb (PingSample.hardware_model <$> g)) as [m'|].
    + destruct Hlabel as (r & Hr & Hm'). rewrite (Hall r Hr) in Hm'. done.
    + destruct g as [|r g']; [done|].
      specialize (Hlabel r ltac:(left)). by rewrite (Hall r) in Hlabel by left.
Qed.

(** The worked example within the last 24 hours. *)
Lemma filters_show_in_the_points_witness :
  ∃ p t,
    HeatmapResponse.points example_response !! 0%nat = Some p
    ∧ HeatmapPoint.latest_seen p = Some t
    ∧ 0 - 24 * 3600000000 ≤ t.
Proof.
  eexists.
  assert (Hp : HeatmapResponse.points example_response !! 0%nat = Some _)
    by reflexivity.
  destruct (filters_show_in_the_points 0
              (HeatmapParams.mk (Some "rssi_dbm") (Some 24) None None)
              example_store example_response _ eq_refl
              (list_elem_of_lookup_2 _ _ _ Hp)) as (Hwindow & _).
  destruct (Hwindow 24 eq_refl) as (t & Ht & Hle).
  by exists t.
Defined.

(** ** The answers of [GET /heatmap] *)

(** X15. [GET /heatmap] has two kinds of outcome only: a validation error
    on [metric] or [hours], or an envelope.  The handler's own check
    ([column is None], error 400 "Unsupported metric.") is never reached:
    every name the pattern lets through is a [Float] column of
    [PingSample]. *)
Theorem GET_heatmap_never_answers_400 now params db :
  (∃ resp, outcome (GET_heatmap now params db) = Return resp
           ∧ HeatmapResponse.metric resp
             = default "rssi_dbm" (HeatmapParams.metric params))
  ∨ outcome (GET_heatmap now params db) = Raise (ValidationError "metric")
  ∨ outcome (GET_heatmap now params db) = Raise (ValidationError "hours").
Proof.
  destruct (decide (default "rssi_dbm" (HeatmapParams.metric params)
                    ∈ supported_metrics)) as [Hm|Hm].
  - destruct (hours_in_bounds (HeatmapParams.hours params)) eqn:Hh.
    + left. apply Is_true_true in Hh.
      destruct (GET_heatmap_valid now params db Hm Hh)
        as (a & value & rows & _ & _ & _ & ->).
      eexists. split; [done|]. by rewrite envelope_eq.
    + right. right. unfold GET_heatmap, metric_matches.
      rewrite bool_decide_eq_true_2 by done. simpl. by rewrite Hh.
  - right. left. by rewrite GET_heatmap_unsupported.
Qed.
